(** * SafeScan monitoring service: a shallow embedding of [app.py]

    The Flask application exposes six GET routes.  Every handler is a short
    sequence of calls into the host (psutil, the clock, the network, the log
    file) followed by the construction of a JSON payload and a status code.
    The embedding keeps that shape: the host is a record of outcomes
    ([world]), the process state (the module-level [SERVICES] dictionary,
    the records handed to [app.logger], the number of clock reads and of
    outbound requests) is threaded through a small state-and-exception
    monad, and payloads are values of a JSON type built exactly as the
    dictionaries of the source are. *)

From Stdlib Require Import ZArith Floats Ascii String.
From stdpp Require Import gmap strings list pretty.

Open Scope string_scope.
Open Scope Z_scope.

(** ** Python values *)

Module Py.

(** A Python [str] is a [string]; its characters stand for the code
    points below 256. *)

Definition LF : ascii := Ascii.ascii_of_nat 10.
Definition CR : ascii := Ascii.ascii_of_nat 13.

(** [str.isspace] on one character: the code points below 256 that
    CPython classifies as whitespace. *)
Definition isspace (c : ascii) : bool :=
  let n := Z.of_nat (Ascii.nat_of_ascii c) in
  ((9 <=? n) && (n <=? 13)) || ((28 <=? n) && (n <=? 32))
  || (n =? 133) || (n =? 160).

Fixpoint lstrip (s : string) : string :=
  match s with
  | EmptyString => EmptyString
  | String c s' => if isspace c then lstrip s' else s
  end.

Fixpoint rstrip (s : string) : string :=
  match s with
  | EmptyString => EmptyString
  | String c s' =>
      match rstrip s' with
      | EmptyString => if isspace c then EmptyString else String c EmptyString
      | r => String c r
      end
  end.

(** [s.strip()] *)
Definition strip (s : string) : string := rstrip (lstrip s).

(** Text-mode reading with the default [newline=None]: "\r\n" and a lone
    "\r" arrive as "\n". *)
Fixpoint translate_newlines (s : string) : string :=
  match s with
  | EmptyString => EmptyString
  | String c s' =>
      if Ascii.eqb c CR then
        match s' with
        | String c' s'' =>
            if Ascii.eqb c' LF then String LF (translate_newlines s'')
            else String LF (translate_newlines s')
        | EmptyString => String LF EmptyString
        end
      else String c (translate_newlines s')
  end.

(** The lines of a translated text, each one keeping its final "\n";
    a last line without a terminator is a line too. *)
Fixpoint split_keepends (s : string) : list string :=
  match s with
  | EmptyString => []
  | String c s' =>
      if Ascii.eqb c LF then String c EmptyString :: split_keepends s'
      else match split_keepends s' with
           | [] => [String c EmptyString]
           | l :: ls => String c l :: ls
           end
  end.

(** [f.readlines()] on a file opened with [open(path, 'r')]. *)
Definition readlines (content : string) : list string :=
  split_keepends (translate_newlines content).

(** [len(l)] *)
Definition len {A} (l : list A) : Z := Z.of_nat (length l).

(** [l[start:]] for an arbitrary integer [start]: a negative index
    counts from the end, and both ends are clamped to the list. *)
Definition slice_from {A} (l : list A) (start : Z) : list A :=
  let n := len l in
  let lo := if start <? 0 then Z.max (start + n) 0 else Z.min start n in
  drop (Z.to_nat lo) l.

(** [os.getenv(key, default)] *)
Definition getenv (environ : gmap string string) (key dflt : string) : string :=
  default dflt (environ !! key).

End Py.

(** ** JSON payloads *)

Set Warnings "-register-all".

Inductive json : Type :=
| JNull
| JInt (z : Z)
| JFloat (f : float)
| JStr (s : string)
| JList (l : list json)
| JDict (d : list (string * json)).

(** Dictionaries keep insertion order, as Python's do. *)
Abbreviation dict := (list (string * json)).

Fixpoint dict_get (k : string) (d : dict) : option json :=
  match d with
  | [] => None
  | (k', v) :: d' => if String.eqb k k' then Some v else dict_get k d'
  end.

(** [d[k] = v]: replace in place when the key exists, append otherwise. *)
Fixpoint dict_set (k : string) (v : json) (d : dict) : dict :=
  match d with
  | [] => [(k, v)]
  | (k', v') :: d' =>
      if String.eqb k k' then (k, v) :: d' else (k', v') :: dict_set k v d'
  end.

Definition dict_values (d : dict) : list json := map snd d.

(** Field access on a payload, [None] when it is not an object or lacks
    the key. *)
Definition field (k : string) (j : json) : option json :=
  match j with
  | JDict d => dict_get k d
  | _ => None
  end.

(** A Flask view result: the [jsonify]-ed body and the status code. *)
Definition response : Type := json * Z.
Definition body (r : response) : json := fst r.
Definition status_code (r : response) : Z := snd r.

(** ** Exceptions, process state and the handler monad *)

(** The exception classes the handlers tell apart: the [except] clause of
    [check_services] names [requests.exceptions.RequestException], every
    other clause names [Exception]. *)
Inductive exn_class := RequestException | OSError | OtherException.

Record exn := Exn { exn_cls : exn_class; exn_msg : string }.

(** [str(e)] *)
Definition str (e : exn) : string := exn_msg e.

Definition is_RequestException (e : exn) : bool :=
  match exn_cls e with RequestException => true | _ => false end.

Inductive outcome (A : Type) : Type :=
| Returns (a : A)
| Raises (e : exn).
Arguments Returns {A} a.
Arguments Raises {A} e.

(** Logging levels with their numeric values. *)
Inductive loglevel := DEBUG | INFO | WARNING | ERROR | CRITICAL.

Definition levelno (l : loglevel) : Z :=
  match l with
  | DEBUG => 10 | INFO => 20 | WARNING => 30 | ERROR => 40 | CRITICAL => 50
  end.

Record log_record := LogRecord { rec_level : loglevel; rec_msg : string }.

(** What outlives a single expression of a handler: the module-level
    [SERVICES] dictionary, the records [file_handler] has been handed (oldest
    first), and how many times the clock and the network were consulted. *)
Record app_state := AppState {
  st_SERVICES : list (string * string);
  st_logged : list log_record;
  st_clock_reads : nat;
  st_requests_sent : nat
}.

(** The three ways a handler changes the state. *)
Definition with_record (r : log_record) (st : app_state) : app_state :=
  {| st_SERVICES := st_SERVICES st;
     st_logged := st_logged st ++ [r];
     st_clock_reads := st_clock_reads st;
     st_requests_sent := st_requests_sent st |}.

Definition with_clock_read (st : app_state) : app_state :=
  {| st_SERVICES := st_SERVICES st;
     st_logged := st_logged st;
     st_clock_reads := S (st_clock_reads st);
     st_requests_sent := st_requests_sent st |}.

Definition with_request_sent (st : app_state) : app_state :=
  {| st_SERVICES := st_SERVICES st;
     st_logged := st_logged st;
     st_clock_reads := st_clock_reads st;
     st_requests_sent := S (st_requests_sent st) |}.

Definition M (A : Type) : Type := app_state -> outcome A * app_state.

Definition ret {A} (a : A) : M A := fun st => (Returns a, st).

Definition raise {A} (e : exn) : M A := fun st => (Raises e, st).

Definition bind {A B} (m : M A) (k : A -> M B) : M B :=
  fun st =>
    match m st with
    | (Returns a, st') => k a st'
    | (Raises e, st') => (Raises e, st')
    end.

Notation "x <- m ;; k" := (bind m (fun x => k))
  (at level 100, m at next level, right associativity).
Notation "m ;;; k" := (bind m (fun _ => k))
  (at level 100, right associativity).

(** [try: body except Exception as e: handler(e)] *)
Definition try_except {A} (body : M A) (handler : exn -> M A) : M A :=
  fun st =>
    match body st with
    | (Returns a, st') => (Returns a, st')
    | (Raises e, st') => handler e st'
    end.

(** [try: body except requests.exceptions.RequestException as e: handler(e)];
    an exception of another class passes through. *)
Definition try_except_RequestException {A} (body : M A) (handler : exn -> M A) : M A :=
  fun st =>
    match body st with
    | (Returns a, st') => (Returns a, st')
    | (Raises e, st') =>
        if is_RequestException e then handler e st' else (Raises e, st')
    end.

(** A call into the host whose outcome the world fixes. *)
Definition call {A} (o : outcome A) : M A := fun st => (o, st).

(** ** Logging configuration (module level) *)

(** The arguments [RotatingFileHandler] is constructed with, and the level
    set on it afterwards. *)
Record RotatingFileHandler := {
  baseFilename : string;
  maxBytes : Z;
  backupCount : Z;
  handler_level : loglevel
}.

Definition file_handler : RotatingFileHandler :=
  {| baseFilename := "logs/monitoring.log";
     maxBytes := 10240000;
     backupCount := 10;
     handler_level := INFO |}.

(** [app.logger.setLevel(logging.INFO)] *)
Definition app_logger_level : loglevel := INFO.

(** [app.logger.log(level, msg)]: the record reaches [file_handler] when
    neither the logger's nor the handler's level filters it out. *)
Definition app_logger_log (lvl : loglevel) (msg : string) : M unit :=
  fun st =>
    if (levelno app_logger_level <=? levelno lvl)
       && (levelno (handler_level file_handler) <=? levelno lvl)
    then (Returns tt, with_record (LogRecord lvl msg) st)
    else (Returns tt, st).

Definition app_logger_error : string -> M unit := app_logger_log ERROR.
Definition app_logger_info : string -> M unit := app_logger_log INFO.

(** ** The host *)

(** [psutil.virtual_memory()] and [psutil.disk_usage(path)], the fields the
    handlers read. *)
Record svmem := { vm_total : Z; vm_available : Z; vm_percent : float; vm_used : Z }.
Record sdiskusage := { du_total : Z; du_used : Z; du_free : Z; du_percent : float }.

(** What [check_services] reads of a [requests.Response]. *)
Record http_response := { resp_status_code : Z; resp_elapsed_seconds : float }.

(** The ways [requests.get(url, timeout=5)] can end that [check_services]
    provides for: an answer, or an exception derived from
    [RequestException] (connection refused, timeout, ...), whose text is
    [msg]. *)
Inductive caught_outcome :=
| Responded (r : http_response)
| RequestFailed (msg : string).

(** The ways it can end at all: as above, or with an exception of another
    class, which the [except] clause does not name.  The library lets some
    through: urllib3's [LocationParseError], for a host name with an empty
    label, reaches the caller as it is.  [msg] is its text. *)
Inductive get_outcome :=
| Caught (c : caught_outcome)
| RaisedOther (msg : string).

Coercion Caught : caught_outcome >-> get_outcome.

(** [logs/monitoring.log] as a request finds it: absent, or present with
    the outcome of opening and reading it as text.  The file is the one
    [file_handler] writes, in a format made of the time, the level, the
    message and the place of the call; its content is taken as the request
    finds it rather than rendered from [st_logged]. *)
Inductive file_state :=
| NoFile
| File (read : outcome string).

(** Everything a handler asks of its surroundings during one request.
    The clock and the network are consulted several times in one request,
    so their answers are indexed by the number of earlier consultations;
    each psutil query is made at most once per request. *)
Record world := World {
  w_utcnow_isoformat : nat -> string;
  w_cpu_percent : outcome float;
  w_cpu_count : outcome (option Z);
  w_virtual_memory : outcome svmem;
  w_disk_usage : outcome sdiskusage;
  w_requests_get : nat -> string -> get_outcome;
  w_log_file : file_state
}.

(** [datetime.datetime.utcnow().isoformat()] *)
Definition utcnow_isoformat (w : world) : M string :=
  fun st =>
    (Returns (w_utcnow_isoformat w (st_clock_reads st)), with_clock_read st).

(** [requests.get(url, timeout=5)] *)
Definition requests_get (w : world) (url : string) : M http_response :=
  fun st =>
    match w_requests_get w (st_requests_sent st) url with
    | Caught (Responded r) => (Returns r, with_request_sent st)
    | Caught (RequestFailed msg) => (Raises (Exn RequestException msg), with_request_sent st)
    | RaisedOther msg => (Raises (Exn OtherException msg), with_request_sent st)
    end.

(** Reading the module-level dictionary. *)
Definition SERVICES_items : M (list (string * string)) :=
  fun st => (Returns (st_SERVICES st), st).

(** The query string of a request, as far as [get_logs] looks at it:
    [lines] missing, present but rejected by [int], or an integer. *)
Inductive query_arg :=
| ArgMissing
| ArgNotInt (raw : string)
| ArgInt (n : Z).

Record request := Request { args_lines : query_arg }.

(** [request.args.get(key, default=d, type=int)] *)
Definition args_get_int (a : query_arg) (d : Z) : Z :=
  match a with
  | ArgInt n => n
  | ArgMissing | ArgNotInt _ => d
  end.

(** ** Startup *)

Definition placeholder_url : string := "http://safescan_apis:5000/api/health".

Definition SERVICES (environ : gmap string string) : list (string * string) :=
  [ ("api", Py.getenv environ "API_URL" "http://safescan_apis:5000/api/health");
    ("database", Py.getenv environ "DB_URL" "http://safescan_apis:5000/api/health");
    ("redis", Py.getenv environ "REDIS_URL" "http://safescan_apis:5000/api/health") ].

(** The state once the module is imported: the startup line is logged and
    [SERVICES] is built from the environment. *)
Definition startup (environ : gmap string string) : app_state :=
  let st0 := {| st_SERVICES := SERVICES environ;
                st_logged := [];
                st_clock_reads := 0;
                st_requests_sent := 0 |} in
  snd (app_logger_info "SafeScan Monitoring startup" st0).

(** ** The handlers *)

Section Handlers.

(** The text of a float inside an f-string, [format(x, '')]: Python's
    shortest round-trip rendering, taken as given. *)
Variable float_str : float -> string.

(** [/health] *)
Definition health (w : world) : M response :=
  ts <- utcnow_isoformat w ;;
  ret (JDict [("status", JStr "healthy");
              ("timestamp", JStr ts);
              ("service", JStr "monitoring")], 200).

Definition json_of_cpu_count (c : option Z) : json :=
  match c with
  | Some n => JInt n
  | None => JNull
  end.

(** [/metrics] *)
Definition system_metrics (w : world) : M response :=
  try_except
    (cpu_percent <- call (w_cpu_percent w) ;;
     memory <- call (w_virtual_memory w) ;;
     disk <- call (w_disk_usage w) ;;
     count <- call (w_cpu_count w) ;;
     ts <- utcnow_isoformat w ;;
     ret (JDict [("cpu", JDict [("percent", JFloat cpu_percent);
                                ("count", json_of_cpu_count count)]);
                 ("memory", JDict [("total", JInt (vm_total memory));
                                   ("available", JInt (vm_available memory));
                                   ("percent", JFloat (vm_percent memory));
                                   ("used", JInt (vm_used memory))]);
                 ("disk", JDict [("total", JInt (du_total disk));
                                 ("used", JInt (du_used disk));
                                 ("free", JInt (du_free disk));
                                 ("percent", JFloat (du_percent disk))]);
                 ("timestamp", JStr ts)], 200))
    (fun e =>
       app_logger_error ("Error getting system metrics: " ++ str e) ;;;
       ret (JDict [("error", JStr (str e))], 500)).

(** One turn of the loop of [check_services]: the entry stored under
    [results[service_name]]. *)
Definition check_one (w : world) (service_url : string) : M json :=
  try_except_RequestException
    (response <- requests_get w service_url ;;
     ret (JDict [("status", JStr (if resp_status_code response =? 200
                                  then "healthy" else "unhealthy"));
                 ("status_code", JInt (resp_status_code response));
                 ("response_time", JFloat (resp_elapsed_seconds response))]))
    (fun e =>
       ret (JDict [("status", JStr "unhealthy");
                   ("error", JStr (str e));
                   ("response_time", JNull)])).

(** [for service_name, service_url in SERVICES.items(): ...] *)
Fixpoint check_each (w : world) (items : list (string * string)) (results : dict)
  : M dict :=
  match items with
  | [] => ret results
  | (service_name, service_url) :: items' =>
      entry <- check_one w service_url ;;
      check_each w items' (dict_set service_name entry results)
  end.

(** [s['status'] == 'healthy'] *)
Definition status_is_healthy (s : json) : bool :=
  match field "status" s with
  | Some (JStr v) => String.eqb v "healthy"
  | _ => false
  end.

(** [/services] *)
Definition check_services (w : world) : M response :=
  items <- SERVICES_items ;;
  results <- check_each w items [] ;;
  let all_healthy := forallb status_is_healthy (dict_values results) in
  ts <- utcnow_isoformat w ;;
  ret (JDict [("overall_status", JStr (if all_healthy then "healthy" else "degraded"));
              ("services", JDict results);
              ("timestamp", JStr ts)],
       if all_healthy then 200 else 503).

(** [/logs] *)
Definition get_logs (req : request) (w : world) : M response :=
  let lines := args_get_int (args_lines req) 100 in
  match w_log_file w with
  | NoFile => ret (JDict [("logs", JList [])], 200)
  | File read =>
      try_except
        (content <- call read ;;
         let logs := Py.readlines content in
         let recent_logs :=
           if Py.len logs >? lines then Py.slice_from logs (- lines) else logs in
         ret (JDict [("logs", JList (map (fun log => JStr (Py.strip log)) recent_logs));
                     ("total_lines", JInt (Py.len logs));
                     ("returned_lines", JInt (Py.len recent_logs))], 200))
        (fun e =>
           app_logger_error ("Error reading logs: " ++ str e) ;;;
           ret (JDict [("error", JStr (str e))], 500))
  end.

Definition alert (level type message timestamp : string) : json :=
  JDict [("level", JStr level);
         ("type", JStr type);
         ("message", JStr message);
         ("timestamp", JStr timestamp)].

(** [if breached: alerts.append({...})], the timestamp being read only
    when the alert is built. *)
Definition append_if (w : world) (breached : bool) (level type message : string)
    (alerts : list json) : M (list json) :=
  if breached then
    ts <- utcnow_isoformat w ;;
    ret (alerts ++ [alert level type message ts])%list
  else ret alerts.

(** [/alerts] *)
Definition get_alerts (w : world) : M response :=
  let alerts := [] in
  try_except
    (cpu_percent <- call (w_cpu_percent w) ;;
     alerts <- append_if w (80 <? cpu_percent)%float "warning" "cpu"
                 ("High CPU usage: " ++ float_str cpu_percent ++ "%") alerts ;;
     memory <- call (w_virtual_memory w) ;;
     alerts <- append_if w (85 <? vm_percent memory)%float "warning" "memory"
                 ("High memory usage: " ++ float_str (vm_percent memory) ++ "%") alerts ;;
     disk <- call (w_disk_usage w) ;;
     alerts <- append_if w (90 <? du_percent disk)%float "critical" "disk"
                 ("Low disk space: " ++ float_str (du_percent disk) ++ "% used") alerts ;;
     ts <- utcnow_isoformat w ;;
     ret (JDict [("alerts", JList alerts);
                 ("count", JInt (Py.len alerts));
                 ("timestamp", JStr ts)], 200))
    (fun e =>
       app_logger_error ("Error getting alerts: " ++ str e) ;;;
       ret (JDict [("error", JStr (str e))], 500)).

(** [/ping] *)
Definition ping : M response :=
  ret (JDict [("message", JStr "pong")], 200).

(** The URL map. *)
Inductive route := Health | Metrics | Services | Logs | Alerts | Ping.

Definition dispatch (r : route) (req : request) (w : world) : M response :=
  match r with
  | Health => health w
  | Metrics => system_metrics w
  | Services => check_services w
  | Logs => get_logs req w
  | Alerts => get_alerts w
  | Ping => ping
  end.

(** The state after a run of requests, each served on the host it
    finds; whatever the handler answers, the process goes on. *)
Definition serve_all (requests : list (route * request * world)) (st : app_state)
  : app_state :=
  fold_left (fun st '(r, req, w) => snd (dispatch r req w st)) requests st.

End Handlers.

(** ** Rotation of the log file

    What the two constructor arguments of [file_handler] mean is fixed by
    [logging.handlers.RotatingFileHandler]; its rollover test and its
    renaming scheme are transcribed here, from CPython 3.11, over file
    sizes.  [base_size] is the size in bytes of [baseFilename], [backups]
    the sizes of [baseFilename.1], [baseFilename.2], ... in that order. *)

Record log_files := LogFiles { base_size : Z; backups : list Z }.

(** A formatted record with its final newline: [msg_chars] is [len(msg)],
    the number of characters, [msg_bytes] the number of bytes its encoding
    adds to the file.  The two agree on ASCII text. *)
Record formatted := Formatted { msg_chars : Z; msg_bytes : Z }.

(** [shouldRollover]: with a positive [maxBytes], the base file is rolled
    over when [self.stream.tell() + len(msg) >= self.maxBytes]: a position
    in bytes plus a length in characters. *)
Definition shouldRollover (h : RotatingFileHandler) (fs : log_files) (msg : formatted) : bool :=
  (0 <? maxBytes h) && (maxBytes h <=? base_size fs + msg_chars msg).

(** [doRollover]: with a positive [backupCount], [base.i] becomes
    [base.(i+1)] for [i] from [backupCount - 1] down to 1, the base file
    becomes [base.1] and a fresh base file is opened; what was
    [base.backupCount] is gone.  With [backupCount = 0] nothing is renamed
    and the base file is reopened for appending. *)
Definition doRollover (h : RotatingFileHandler) (fs : log_files) : log_files :=
  if 0 <? backupCount h then
    {| base_size := 0;
       backups := take (Z.to_nat (backupCount h)) (base_size fs :: backups fs) |}
  else fs.

(** [emit]: roll over if need be, then write the encoded record at the
    end of the base file. *)
Definition emit (h : RotatingFileHandler) (fs : log_files) (msg : formatted) : log_files :=
  let fs' := if shouldRollover h fs msg then doRollover h fs else fs in
  {| base_size := base_size fs' + msg_bytes msg; backups := backups fs' |}.

(** The files after a run of records. *)
Definition emit_all (h : RotatingFileHandler) (fs : log_files) (msgs : list formatted) : log_files :=
  fold_left (emit h) msgs fs.

(** A record of ASCII text: as many bytes as characters. *)
Definition ascii_record (n : Z) : formatted := {| msg_chars := n; msg_bytes := n |}.

(** ** Vocabulary of the statements *)

(** The entry [check_services] stores for an endpoint whose request had
    the outcome [o]. *)
Definition entry_of (o : caught_outcome) : json :=
  match o with
  | Responded r =>
      JDict [("status", JStr (if resp_status_code r =? 200 then "healthy" else "unhealthy"));
             ("status_code", JInt (resp_status_code r));
             ("response_time", JFloat (resp_elapsed_seconds r))]
  | RequestFailed msg =>
      JDict [("status", JStr "unhealthy");
             ("error", JStr msg);
             ("response_time", JNull)]
  end.


(** The request ended in a way the [except] clause provides for. *)
Definition is_caught (o : get_outcome) : bool :=
  match o with
  | Caught _ => true
  | RaisedOther _ => false
  end.

(** The outcome of the request made for the [i]-th configured endpoint
    when the handler starts in state [st]. *)
Definition outcome_at (w : world) (st : app_state) (i : nat) (url : string) : get_outcome :=
  w_requests_get w (st_requests_sent st + i)%nat url.

(** What polling [items] comes to, the first request being number [k]:
    the entries, one per endpoint, or, when a request raises past the
    [except] clause, the number of requests made by then and the text of
    the exception. *)
Fixpoint poll_from (w : world) (k : nat) (items : list (string * string))
  : dict + nat * string :=
  match items with
  | [] => inl []
  | (name, url) :: items' =>
      match w_requests_get w k url with
      | Caught c =>
          match poll_from w (S k) items' with
          | inl d => inl ((name, entry_of c) :: d)
          | inr (n, msg) => inr (S n, msg)
          end
      | RaisedOther msg => inr (1%nat, msg)
      end
  end.

Fixpoint with_requests_sent (n : nat) (st : app_state) : app_state :=
  match n with
  | O => st
  | S n' => with_requests_sent n' (with_request_sent st)
  end.

(** The alerts of a given type in a list of alerts. *)
Definition has_type (ty : string) (a : json) : bool :=
  match field "type" a with
  | Some (JStr t) => String.eqb t ty
  | _ => false
  end.

Definition alerts_of_type (ty : string) (alerts : list json) : list json :=
  List.filter (has_type ty) alerts.

(** The exception of a failed host query. *)
Definition failure {A} (o : outcome A) : option exn :=
  match o with
  | Returns _ => None
  | Raises e => Some e
  end.

(** The first failure of a sequence of queries made in order. *)
Fixpoint first_failure (qs : list (option exn)) : option exn :=
  match qs with
  | [] => None
  | Some e :: _ => Some e
  | None :: qs' => first_failure qs'
  end.

(** The last [n] elements of a list (all of it when it is shorter). *)
Definition last_n {A} (n : nat) (l : list A) : list A :=
  drop (length l - n) l.

(** The error response every [except Exception] clause builds. *)
Definition error_response (e : exn) : response :=
  (JDict [("error", JStr (str e))], 500).

(** A line of text with its terminator. *)
Definition line (s : string) : string := s ++ String Py.LF "".

(** The lines [get_logs] keeps of [logs] for a given [lines] argument. *)
Definition recent (logs : list string) (lines : Z) : list string :=
  if Py.len logs >? lines then Py.slice_from logs (- lines) else logs.

(** The body [get_logs] answers with when it has read [logs] and kept
    [recent_logs]. *)
Definition logs_payload (logs recent_logs : list string) : json :=
  JDict [("logs", JList (map (fun log => JStr (Py.strip log)) recent_logs));
         ("total_lines", JInt (Py.len logs));
         ("returned_lines", JInt (Py.len recent_logs))].

(** ** Sample hosts, for closed statements *)

(** A host on which every query succeeds below the thresholds, every
    endpoint answers 200 and the log file is [f]. *)
Definition calm_world (f : file_state) : world :=
  {| w_utcnow_isoformat := fun _ => "2024-01-01T00:00:00";
     w_cpu_percent := Returns 12.5%float;
     w_cpu_count := Returns (Some 4);
     w_virtual_memory :=
       Returns {| vm_total := 8000; vm_available := 6000; vm_percent := 25%float; vm_used := 2000 |};
     w_disk_usage :=
       Returns {| du_total := 100000; du_used := 40000; du_free := 60000; du_percent := 40%float |};
     w_requests_get := fun _ _ => Responded {| resp_status_code := 200; resp_elapsed_seconds := 0.25%float |};
     w_log_file := f |}.

(** The same host with the first endpoint polled refusing connections. *)
Definition api_down_world : world :=
  {| w_utcnow_isoformat := w_utcnow_isoformat (calm_world NoFile);
     w_cpu_percent := w_cpu_percent (calm_world NoFile);
     w_cpu_count := w_cpu_count (calm_world NoFile);
     w_virtual_memory := w_virtual_memory (calm_world NoFile);
     w_disk_usage := w_disk_usage (calm_world NoFile);
     w_requests_get := fun k url =>
       match k with
       | O => RequestFailed "HTTPConnectionPool(host='safescan_apis', port=5000): Max retries exceeded (Connection refused)"
       | S _ => w_requests_get (calm_world NoFile) k url
       end;
     w_log_file := NoFile |}.


(** An environment whose [DB_URL] has a host name with an empty label, and
    a host on which the first endpoint polled refuses connections and
    that URL cannot be parsed. *)
Definition unparsable_db_environ : gmap string string :=
  {[ "DB_URL" := "http://a..b/" ]}.

Definition unparsable_db_world : world :=
  {| w_utcnow_isoformat := w_utcnow_isoformat (calm_world NoFile);
     w_cpu_percent := w_cpu_percent (calm_world NoFile);
     w_cpu_count := w_cpu_count (calm_world NoFile);
     w_virtual_memory := w_virtual_memory (calm_world NoFile);
     w_disk_usage := w_disk_usage (calm_world NoFile);
     w_requests_get := fun k url =>
       if String.eqb url "http://a..b/"
       then RaisedOther "Failed to parse: 'a..b', label empty or too long"
       else w_requests_get api_down_world k url;
     w_log_file := NoFile |}.

(** A host under pressure: CPU and disk above their thresholds, memory
    below its own. *)
Definition hot_world : world :=
  {| w_utcnow_isoformat := fun k => "2024-01-01T00:00:0" ++ pretty k;
     w_cpu_percent := Returns 91.5%float;
     w_cpu_count := Returns (Some 4);
     w_virtual_memory :=
       Returns {| vm_total := 8000; vm_available := 6000; vm_percent := 25%float; vm_used := 2000 |};
     w_disk_usage :=
       Returns {| du_total := 100000; du_used := 95000; du_free := 5000; du_percent := 95%float |};
     w_requests_get := w_requests_get (calm_world NoFile);
     w_log_file := NoFile |}.

(** A host whose disk cannot be queried. *)
Definition no_disk_world : world :=
  {| w_utcnow_isoformat := w_utcnow_isoformat hot_world;
     w_cpu_percent := w_cpu_percent hot_world;
     w_cpu_count := w_cpu_count hot_world;
     w_virtual_memory := w_virtual_memory hot_world;
     w_disk_usage := Raises (Exn OSError "[Errno 2] No such file or directory: '/'");
     w_requests_get := w_requests_get hot_world;
     w_log_file := NoFile |}.

(** A stand-in rendering of floats for closed statements, exact on the
    sample values above. *)
Definition sample_float_str (x : float) : string :=
  if (x =? 91.5)%float then "91.5"
  else if (x =? 95)%float then "95.0"
  else if (x =? 25)%float then "25.0"
  else "12.5".

(** ** Vocabulary of the further statements *)

(** The character [c] occurs in [s]. *)
Fixpoint mentions (c : ascii) (s : string) : bool :=
  match s with
  | EmptyString => false
  | String c' s' => Ascii.eqb c c' || mentions c s'
  end.

Definition first_char (s : string) : option ascii :=
  match s with
  | EmptyString => None
  | String c _ => Some c
  end.

Fixpoint last_char (s : string) : option ascii :=
  match s with
  | EmptyString => None
  | String c EmptyString => Some c
  | String _ s' => last_char s'
  end.

(** There is a character at that end and it is whitespace. *)
Definition is_space_at (end_char : option ascii) : bool :=
  match end_char with
  | Some c => Py.isspace c
  | None => false
  end.

(** A line terminator can only be the last character. *)
Fixpoint lf_only_last (s : string) : bool :=
  match s with
  | EmptyString => true
  | String c EmptyString => true
  | String c s' => negb (Ascii.eqb c Py.LF) && lf_only_last s'
  end.

(** An entry as a reader of [/logs] wants it: one line of text, without
    terminator, with nothing to trim. *)
Definition clean_entry (e : string) : Prop :=
  mentions Py.LF e = false
  /\ mentions Py.CR e = false
  /\ is_space_at (first_char e) = false
  /\ is_space_at (last_char e) = false
  /\ Py.strip e = e.

(** The bytes the log directory holds. *)
Definition total_bytes (fs : log_files) : Z :=
  base_size fs + foldr Z.add 0 (backups fs).

(** The records a handler is allowed to add to the log. *)
Definition is_error_record (r : log_record) : Prop := rec_level r = ERROR.

(** * Properties *)

(** Closes [exists t, alerts = expected t] once both sides are computed:
    the timestamp is read off the goal, or arbitrary when no alert is
    expected. *)
Ltac pick_timestamp :=
  first [ exists ""; reflexivity | eexists; reflexivity ].

(** ** The Python primitives on small inputs *)

Example strip_both_ends : Py.strip ("  2024-01-01 INFO: up " ++ String Py.CR (line "")) = "2024-01-01 INFO: up".
Proof. reflexivity. Qed.

Example strip_keeps_inner_spaces : Py.strip (line " a  b") = "a  b".
Proof. reflexivity. Qed.

Example readlines_keeps_terminators :
  Py.readlines (line "a" ++ line "" ++ "c") = [line "a"; line ""; "c"].
Proof. reflexivity. Qed.

Example readlines_translates_cr :
  Py.readlines ("a" ++ String Py.CR (line "b")) = [line "a"; line "b"].
Proof. reflexivity. Qed.

Example readlines_empty_file : Py.readlines "" = [].
Proof. reflexivity. Qed.

Example slice_last_two : Py.slice_from [1; 2; 3; 4; 5] (-2) = [4; 5].
Proof. reflexivity. Qed.

Example slice_beyond_start : Py.slice_from [1; 2; 3] (-7) = [1; 2; 3].
Proof. reflexivity. Qed.

Example slice_positive_start : Py.slice_from [1; 2; 3] 2 = [3].
Proof. reflexivity. Qed.

Example dict_set_overwrites :
  dict_set "a" (JInt 2) [("a", JInt 1); ("b", JNull)] = [("a", JInt 2); ("b", JNull)].
Proof. reflexivity. Qed.

(** ** The log tail *)

Section LogTail.

Context {A : Type}.
Implicit Types (l : list A) (n : Z).

Lemma len_nonneg l : 0 <= Py.len l.
Proof. unfold Py.len. lia. Qed.

(** [l[-n:]] when [0 < n < len(l)]: the last [n] elements. *)
Lemma slice_from_neg_in_range l n :
  0 < n -> n < Py.len l ->
  Py.slice_from l (- n) = last_n (Z.to_nat n) l.
Proof.
  intros Hpos Hlt. unfold Py.slice_from, last_n, Py.len in *.
  destruct (Z.ltb_spec (- n) 0) as [_|]; [|lia].
  f_equal. lia.
Qed.

(** [l[-0:]] is [l[0:]]: the whole list. *)
Lemma slice_from_zero l : Py.slice_from l (- 0) = l.
Proof.
  unfold Py.slice_from. simpl. rewrite Z.min_l by apply len_nonneg. reflexivity.
Qed.

(** [l[-n:]] when [n < 0]: the index is positive, a prefix is dropped. *)
Lemma slice_from_neg_arg l n :
  n < 0 -> Py.slice_from l (- n) = drop (Z.to_nat (- n)) l.
Proof.
  intros Hneg. unfold Py.slice_from.
  destruct (Z.ltb_spec (- n) 0) as [|_]; [lia|].
  destruct (Z.le_ge_cases (- n) (Py.len l)) as [Hle|Hge].
  - rewrite Z.min_l by assumption. reflexivity.
  - rewrite Z.min_r by lia. unfold Py.len in *.
    rewrite Nat2Z.id, !drop_ge by lia. reflexivity.
Qed.

Lemma length_last_n k l : length (last_n k l) = Nat.min k (length l).
Proof. unfold last_n. rewrite length_drop. lia. Qed.

End LogTail.

(** What [get_logs] does once the file is there and readable. *)
Lemma get_logs_readable content n w st :
  w_log_file w = File (Returns content) ->
  get_logs (Request (ArgInt n)) w st
  = (Returns (logs_payload (Py.readlines content) (recent (Py.readlines content) n), 200), st).
Proof.
  intros Hfile. unfold get_logs. rewrite Hfile. reflexivity.
Qed.

(** For [lines >= 1] the kept lines are the last [min lines total]. *)
Lemma recent_positive (logs : list string) n :
  1 <= n ->
  recent logs n = last_n (Z.to_nat (Z.min n (Py.len logs))) logs
  /\ Py.len (recent logs n) = Z.min n (Py.len logs).
Proof.
  intros Hn. unfold recent.
  destruct (Z.gtb_spec (Py.len logs) n) as [Hgt|Hle].
  - rewrite Z.min_l by lia.
    rewrite slice_from_neg_in_range by lia.
    split; [reflexivity|].
    unfold Py.len in *. rewrite length_last_n. lia.
  - rewrite Z.min_r by lia. split; [|reflexivity].
    unfold last_n, Py.len. rewrite Nat2Z.id, Nat.sub_diag. reflexivity.
Qed.

(** With [lines = 0] and a non-empty file the guard [len(logs) > lines]
    holds and [logs[-0:]] is the whole list. *)
Lemma recent_zero (logs : list string) : recent logs 0 = logs.
Proof.
  unfold recent. destruct (Py.len logs >? 0); [apply slice_from_zero | reflexivity].
Qed.

(** For a negative [lines] the guard always holds and [logs[-lines:]] drops
    the first [|lines|] lines. *)
Lemma recent_negative (logs : list string) n :
  n < 0 ->
  recent logs n = drop (Z.to_nat (Z.abs n)) logs
  /\ Py.len (recent logs n) = Z.max (Py.len logs - Z.abs n) 0.
Proof.
  intros Hn. unfold recent.
  destruct (Z.gtb_spec (Py.len logs) n) as [_|Hle].
  - rewrite slice_from_neg_arg by assumption.
    rewrite Z.abs_neq by lia. split; [reflexivity|].
    unfold Py.len. rewrite length_drop. lia.
  - pose proof (len_nonneg logs). lia.
Qed.

(** X1: the tail of the log for every request with [lines >= 1]: [min lines
    total] entries, the last ones of the file in file order, stripped, with
    [total_lines] the number of lines of the file and [returned_lines] the
    number of entries. *)
Lemma get_logs_tail content n w st :
  w_log_file w = File (Returns content) ->
  1 <= n ->
  let logs := Py.readlines content in
  let k := Z.min n (Py.len logs) in
  get_logs (Request (ArgInt n)) w st
  = (Returns (JDict [("logs", JList (map (fun log => JStr (Py.strip log)) (last_n (Z.to_nat k) logs)));
                     ("total_lines", JInt (Py.len logs));
                     ("returned_lines", JInt k)], 200), st).
Proof.
  intros Hfile Hn logs k.
  rewrite (get_logs_readable content n w st Hfile).
  destruct (recent_positive logs n Hn) as [Hrec Hlen].
  unfold logs_payload. fold logs. rewrite Hlen, Hrec. reflexivity.
Qed.

(** The scenario of the specification: 250 lines, [lines=50]. *)
Lemma get_logs_tail_250_50 :
  let content := String.concat "" (map (fun i => line ("entry " ++ pretty i)) (seq 1 250)) in
  let logs := Py.readlines content in
  Py.len logs = 250
  /\ get_logs (Request (ArgInt 50)) (calm_world (File (Returns content))) (startup ∅)
     = (Returns (JDict [("logs", JList (map (fun i => JStr ("entry " ++ pretty i)) (seq 201 50)));
                        ("total_lines", JInt 250);
                        ("returned_lines", JInt 50)], 200), startup ∅).
Proof. vm_compute. split; reflexivity. Qed.

(** C1 (the case [lines = 0]): on a log file of two lines, [/logs?lines=0]
    answers with both lines and [returned_lines = 2], where the last
    [min 0 2 = 0] lines would be none. *)
Theorem get_logs_zero_lines_returns_whole_file :
  let content := line "first" ++ line "second" in
  forall st,
    get_logs (Request (ArgInt 0)) (calm_world (File (Returns content))) st
    = (Returns (JDict [("logs", JList [JStr "first"; JStr "second"]);
                       ("total_lines", JInt 2);
                       ("returned_lines", JInt 2)], 200), st)
    /\ Z.min 0 (Py.len (Py.readlines content)) = 0.
Proof. intros content st. split; reflexivity. Qed.

(** C9: a negative [lines] is neither an error nor read as zero: the
    answer has status 200 and holds every line but the first [|lines|],
    so [returned_lines = max (total_lines - |lines|) 0]. *)
Theorem get_logs_negative_lines content n w st :
  w_log_file w = File (Returns content) ->
  n < 0 ->
  let logs := Py.readlines content in
  get_logs (Request (ArgInt n)) w st
  = (Returns (JDict [("logs", JList (map (fun log => JStr (Py.strip log))
                                        (drop (Z.to_nat (Z.abs n)) logs)));
                     ("total_lines", JInt (Py.len logs));
                     ("returned_lines", JInt (Z.max (Py.len logs - Z.abs n) 0))], 200), st).
Proof.
  intros Hfile Hn logs.
  rewrite (get_logs_readable content n w st Hfile).
  destruct (recent_negative logs n Hn) as [Hrec Hlen].
  unfold logs_payload. fold logs. rewrite Hlen, Hrec. reflexivity.
Qed.

Lemma get_logs_negative_lines_witness :
  let content := line " first" ++ line "second " ++ line "third" in
  get_logs (Request (ArgInt (-2))) (calm_world (File (Returns content))) (startup ∅)
  = (Returns (JDict [("logs", JList [JStr "third"]);
                     ("total_lines", JInt 3);
                     ("returned_lines", JInt 1)], 200), startup ∅).
Proof.
  exact (get_logs_negative_lines
           (line " first" ++ line "second " ++ line "third") (-2)
           (calm_world (File (Returns (line " first" ++ line "second " ++ line "third"))))
           (startup ∅) eq_refl eq_refl).
Defined.

(** C5: without a log file the answer is [{logs: []}] with status 200,
    whatever the request asks for; nothing is logged and nothing raised. *)
Theorem get_logs_missing_file req w st :
  w_log_file w = NoFile ->
  get_logs req w st = (Returns (JDict [("logs", JList [])], 200), st).
Proof.
  intros Hfile. unfold get_logs. rewrite Hfile. reflexivity.
Qed.

Lemma get_logs_missing_file_witness :
  get_logs (Request (ArgInt 7)) (calm_world NoFile) (startup ∅)
  = (Returns (JDict [("logs", JList [])], 200), startup ∅).
Proof.
  exact (get_logs_missing_file (Request (ArgInt 7)) (calm_world NoFile) (startup ∅) eq_refl).
Defined.

(** ** The service poller *)

Lemma dict_set_fresh k v (d : dict) :
  k ∉ d.*1 -> dict_set k v d = (d ++ [(k, v)])%list.
Proof.
  induction d as [|[k' v'] d IH]; simpl; intros Hk; [reflexivity|].
  apply not_elem_of_cons in Hk as [Hne Hk].
  destruct (String.eqb_spec k k') as [->|_]; [contradiction|].
  rewrite IH by assumption. reflexivity.
Qed.

(** One endpoint: the request is counted; an answer or a request error
    becomes an entry, any other exception goes on. *)
Lemma check_one_run w url st :
  check_one w url st
  = match w_requests_get w (st_requests_sent st) url with
    | Caught c => (Returns (entry_of c), with_request_sent st)
    | RaisedOther msg => (Raises (Exn OtherException msg), with_request_sent st)
    end.
Proof.
  unfold check_one, try_except_RequestException, bind, requests_get.
  destruct (w_requests_get w (st_requests_sent st) url) as [[r|msg]|msg]; reflexivity.
Qed.

Lemma with_requests_sent_count n st :
  st_requests_sent (with_requests_sent n st) = (st_requests_sent st + n)%nat.
Proof.
  revert st. induction n as [|n IH]; intros st; simpl; [lia|].
  rewrite IH. simpl. lia.
Qed.

Lemma with_requests_sent_SERVICES n st :
  st_SERVICES (with_requests_sent n st) = st_SERVICES st.
Proof.
  revert st. induction n as [|n IH]; intros st; simpl; [reflexivity|].
  rewrite IH. reflexivity.
Qed.

Lemma with_requests_sent_logged n st :
  st_logged (with_requests_sent n st) = st_logged st.
Proof.
  revert st. induction n as [|n IH]; intros st; simpl; [reflexivity|].
  rewrite IH. reflexivity.
Qed.

Lemma with_requests_sent_clock n st :
  st_clock_reads (with_requests_sent n st) = st_clock_reads st.
Proof.
  revert st. induction n as [|n IH]; intros st; simpl; [reflexivity|].
  rewrite IH. reflexivity.
Qed.

(** The loop, whatever the names: it runs to its end and returns, or stops
    at the first request that raises past the [except] clause. *)
Lemma check_each_shape w items :
  forall results st,
    match poll_from w (st_requests_sent st) items with
    | inl _ =>
        exists d, check_each w items results st
                  = (Returns d, with_requests_sent (length items) st)
    | inr (n, msg) =>
        check_each w items results st
        = (Raises (Exn OtherException msg), with_requests_sent n st)
        /\ (1 <= n <= length items)%nat
    end.
Proof.
  induction items as [|[name url] items IH]; intros results st; simpl.
  - eexists. reflexivity.
  - unfold bind. rewrite check_one_run.
    destruct (w_requests_get w (st_requests_sent st) url) as [c|msg].
    + specialize (IH (dict_set name (entry_of c) results) (with_request_sent st)).
      cbn [with_request_sent st_requests_sent] in IH.
      destruct (poll_from w (S (st_requests_sent st)) items) as [d|[n msg]].
      * exact IH.
      * destruct IH as [Hrun Hn]. split; [exact Hrun | lia].
    + split; [reflexivity | lia].
Qed.

(** The loop with distinct names, none of them in [results] yet: every
    turn that is completed appends one entry. *)
Lemma check_each_run w items :
  forall results st,
    NoDup items.*1 ->
    (forall name, name ∈ items.*1 -> name ∉ results.*1) ->
    check_each w items results st
    = match poll_from w (st_requests_sent st) items with
      | inl d => (Returns (results ++ d)%list, with_requests_sent (length items) st)
      | inr (n, msg) => (Raises (Exn OtherException msg), with_requests_sent n st)
      end.
Proof.
  induction items as [|[name url] items IH]; intros results st Hnd Hfresh; simpl.
  - rewrite app_nil_r. reflexivity.
  - apply NoDup_cons in Hnd as [Hname Hnd].
    unfold bind. rewrite check_one_run.
    destruct (w_requests_get w (st_requests_sent st) url) as [c|msg]; [|reflexivity].
    rewrite dict_set_fresh by (apply Hfresh; left).
    rewrite IH.
    + cbn [with_request_sent st_requests_sent].
      destruct (poll_from w (S (st_requests_sent st)) items) as [d|[n msg]]; [|reflexivity].
      rewrite <- app_assoc. reflexivity.
    + assumption.
    + intros name' Hin. rewrite fmap_app. simpl.
      rewrite elem_of_app, list_elem_of_singleton.
      intros [Hres| ->]; [|contradiction].
      revert Hres. apply Hfresh. right. assumption.
Qed.

Lemma poll_from_names w items :
  forall k d, poll_from w k items = inl d -> d.*1 = items.*1.
Proof.
  induction items as [|[name url] items IH]; intros k d Hd; simpl in Hd.
  - injection Hd as <-. reflexivity.
  - destruct (w_requests_get w k url) as [c|msg]; [|discriminate].
    destruct (poll_from w (S k) items) as [d'|[n msg]] eqn:Hrest; [|discriminate].
    injection Hd as <-.
    change (name :: d'.*1 = name :: items.*1). f_equal. exact (IH (S k) d' Hrest).
Qed.

(** Polling comes to its end exactly when every request is caught. *)
Lemma poll_from_all_caught w items :
  forall k,
    (forall i name url,
        items !! i = Some (name, url) ->
        is_caught (w_requests_get w (k + i)%nat url) = true) ->
    exists d, poll_from w k items = inl d.
Proof.
  induction items as [|[name url] items IH]; intros k Hall; simpl; [eauto|].
  pose proof (Hall O name url eq_refl) as Hhead. rewrite Nat.add_0_r in Hhead.
  destruct (w_requests_get w k url) as [c|msg]; [|discriminate].
  destruct (IH (S k)) as [d Hd].
  - intros i name' url' Hi.
    replace (S k + i)%nat with (k + S i)%nat by lia.
    exact (Hall (S i) name' url' Hi).
  - rewrite Hd. eauto.
Qed.

(** The first request to raise past the [except] clause ends the polling. *)
Lemma poll_from_first_escape w items :
  forall k i name url msg,
    items !! i = Some (name, url) ->
    w_requests_get w (k + i)%nat url = RaisedOther msg ->
    (forall j name' url',
        (j < i)%nat -> items !! j = Some (name', url') ->
        is_caught (w_requests_get w (k + j)%nat url') = true) ->
    poll_from w k items = inr (S i, msg).
Proof.
  induction items as [|[name0 url0] items IH]; intros k i name url msg Hi Hout Hbefore;
    [discriminate|].
  simpl. destruct i as [|i]; simpl in Hi.
  - injection Hi as <- <-. rewrite Nat.add_0_r in Hout. rewrite Hout. reflexivity.
  - pose proof (Hbefore O name0 url0 ltac:(lia) eq_refl) as Hhead.
    rewrite Nat.add_0_r in Hhead.
    destruct (w_requests_get w k url0) as [c|msg0]; [|discriminate].
    rewrite (IH (S k) i name url msg Hi).
    + reflexivity.
    + replace (S k + i)%nat with (k + S i)%nat by lia. exact Hout.
    + intros j name' url' Hj Hitem.
      replace (S k + j)%nat with (k + S j)%nat by lia.
      exact (Hbefore (S j) name' url' ltac:(lia) Hitem).
Qed.

(** Any request that raises past the [except] clause keeps the polling
    from its end. *)
Lemma poll_from_some_escape w items :
  forall k i name url msg,
    items !! i = Some (name, url) ->
    w_requests_get w (k + i)%nat url = RaisedOther msg ->
    exists n msg', poll_from w k items = inr (n, msg').
Proof.
  induction items as [|[name0 url0] items IH]; intros k i name url msg Hi Hout;
    [discriminate|].
  simpl. destruct (w_requests_get w k url0) as [c|msg0] eqn:Hhead; [|eauto].
  destruct i as [|i]; simpl in Hi.
  - injection Hi as <- <-. rewrite Nat.add_0_r in Hout. congruence.
  - destruct (IH (S k) i name url msg Hi) as (n & msg' & Hrest).
    + replace (S k + i)%nat with (k + S i)%nat by lia. exact Hout.
    + rewrite Hrest. eauto.
Qed.

(** Polling that stops short was stopped by such a request. *)
Lemma poll_from_inr_escape w items :
  forall k n msg,
    poll_from w k items = inr (n, msg) ->
    exists i name url msg',
      items !! i = Some (name, url)
      /\ w_requests_get w (k + i)%nat url = RaisedOther msg'.
Proof.
  induction items as [|[name0 url0] items IH]; intros k n msg Hpoll; [discriminate|].
  simpl in Hpoll.
  destruct (w_requests_get w k url0) as [c|msg0] eqn:Hhead.
  - destruct (poll_from w (S k) items) as [d|[n' msg']] eqn:Hrest; [discriminate|].
    destruct (IH (S k) n' msg' Hrest) as (i & name & url & msg'' & Hi & Hout).
    exists (S i), name, url, msg''. split; [exact Hi|].
    replace (k + S i)%nat with (S k + i)%nat by lia. exact Hout.
  - exists O, name0, url0, msg0. split; [reflexivity|].
    rewrite Nat.add_0_r. exact Hhead.
Qed.



(** With distinct names the entry of the [i]-th endpoint is found under
    its name, and it is the classification of the [i]-th request. *)
Lemma dict_get_poll_from w items :
  forall k d i name url,
    NoDup items.*1 ->
    poll_from w k items = inl d ->
    items !! i = Some (name, url) ->
    exists c,
      w_requests_get w (k + i)%nat url = Caught c
      /\ dict_get name d = Some (entry_of c).
Proof.
  induction items as [|[name0 url0] items IH]; intros k d i name url Hnd Hd Hi; [discriminate|].
  apply NoDup_cons in Hnd as [Hname0 Hnd]. simpl in Hd.
  destruct (w_requests_get w k url0) as [c0|msg] eqn:Hhead; [|discriminate].
  destruct (poll_from w (S k) items) as [d'|[n msg]] eqn:Hrest; [|discriminate].
  injection Hd as <-.
  destruct i as [|i]; simpl in Hi.
  - injection Hi as <- <-. exists c0. rewrite Nat.add_0_r. split; [exact Hhead|].
    simpl. rewrite String.eqb_refl. reflexivity.
  - destruct (IH (S k) d' i name url Hnd Hrest Hi) as (c & Hc & Hget).
    exists c. replace (k + S i)%nat with (S k + i)%nat by lia. split; [exact Hc|].
    simpl. destruct (String.eqb_spec name name0) as [Heq|_]; [|exact Hget].
    exfalso. apply Hname0.
    apply (list_elem_of_fmap_2' fst _ (name, url)); [|symmetry; exact Heq].
    apply list_elem_of_lookup. exists i. exact Hi.
Qed.

(** Polling depends on the network only through the requests made. *)
Lemma poll_from_ext w1 w2 items :
  forall k,
    (forall i name url,
        items !! i = Some (name, url) ->
        w_requests_get w1 (k + i)%nat url = w_requests_get w2 (k + i)%nat url) ->
    poll_from w1 k items = poll_from w2 k items.
Proof.
  induction items as [|[name url] items IH]; intros k Hsame; [reflexivity|].
  simpl.
  pose proof (Hsame O name url eq_refl) as Hhead. rewrite Nat.add_0_r in Hhead.
  rewrite Hhead, (IH (S k)); [reflexivity|].
  intros i name' url' Hi.
  replace (S k + i)%nat with (k + S i)%nat by lia.
  exact (Hsame (S i) name' url' Hi).
Qed.

(** The whole handler, for any dictionary of endpoints. *)
Lemma check_services_run w st :
  NoDup (st_SERVICES st).*1 ->
  check_services w st
  = match poll_from w (st_requests_sent st) (st_SERVICES st) with
    | inl results =>
        let all_healthy := forallb status_is_healthy (dict_values results) in
        let st' := with_requests_sent (length (st_SERVICES st)) st in
        (Returns (JDict [("overall_status", JStr (if all_healthy then "healthy" else "degraded"));
                         ("services", JDict results);
                         ("timestamp", JStr (w_utcnow_isoformat w (st_clock_reads st')))],
                  if all_healthy then 200 else 503),
         with_clock_read st')
    | inr (n, msg) => (Raises (Exn OtherException msg), with_requests_sent n st)
    end.
Proof.
  intros Hnd.
  unfold check_services, bind, SERVICES_items.
  rewrite check_each_run; [| assumption | intros name _; apply not_elem_of_nil].
  destruct (poll_from w (st_requests_sent st) (st_SERVICES st)) as [d|[n msg]]; reflexivity.
Qed.

Lemma SERVICES_names environ : (SERVICES environ).*1 = ["api"; "database"; "redis"].
Proof. reflexivity. Qed.

Lemma SERVICES_NoDup environ : NoDup (SERVICES environ).*1.
Proof. rewrite SERVICES_names. compute_done. Qed.







(** ** The alert evaluator *)

Lemma has_type_alert ty level type message timestamp :
  has_type ty (alert level type message timestamp) = String.eqb type ty.
Proof. reflexivity. Qed.

Section Alerts.

Variable float_str : float -> string.

(** C4: with the three samples taken, [/alerts] answers 200 with
    [alerts], [count] and [timestamp]; the alerts of type cpu are exactly
    one, of level warning, with the message "High CPU usage: " followed by
    the measured value and "%", when the CPU sample is above 80, and none
    otherwise; likewise for memory above 85 (warning, "High memory usage: ")
    and disk above 90 (critical, "Low disk space: ... % used").  Each alert
    is spelled out key by key. *)
Theorem get_alerts_thresholds w st cpu memory disk :
  w_cpu_percent w = Returns cpu ->
  w_virtual_memory w = Returns memory ->
  w_disk_usage w = Returns disk ->
  exists alerts ts st',
    get_alerts float_str w st
    = (Returns (JDict [("alerts", JList alerts);
                       ("count", JInt (Py.len alerts));
                       ("timestamp", JStr ts)], 200), st')
    /\ (exists t,
          alerts_of_type "cpu" alerts
          = if (80 <? cpu)%float
            then [JDict [("level", JStr "warning");
                         ("type", JStr "cpu");
                         ("message", JStr ("High CPU usage: " ++ float_str cpu ++ "%"));
                         ("timestamp", JStr t)]]
            else [])
    /\ (exists t,
          alerts_of_type "memory" alerts
          = if (85 <? vm_percent memory)%float
            then [JDict [("level", JStr "warning");
                         ("type", JStr "memory");
                         ("message",
                          JStr ("High memory usage: " ++ float_str (vm_percent memory) ++ "%"));
                         ("timestamp", JStr t)]]
            else [])
    /\ (exists t,
          alerts_of_type "disk" alerts
          = if (90 <? du_percent disk)%float
            then [JDict [("level", JStr "critical");
                         ("type", JStr "disk");
                         ("message",
                          JStr ("Low disk space: " ++ float_str (du_percent disk) ++ "% used"));
                         ("timestamp", JStr t)]]
            else []).
Proof.
  intros Hcpu Hmem Hdisk.
  unfold get_alerts, try_except, bind, call, append_if.
  rewrite Hcpu, Hmem, Hdisk.
  destruct (80 <? cpu)%float, (85 <? vm_percent memory)%float,
           (90 <? du_percent disk)%float;
    cbn; eexists _, _, _; (split; [reflexivity|]); cbn;
    (split; [pick_timestamp|]); (split; [pick_timestamp|]); pick_timestamp.
Qed.

(** C10: a successful [/alerts] answer lists its alerts in the order cpu,
    memory, disk, with no type twice, and [count] is the length of the
    list, between 0 and 3. *)
Theorem get_alerts_shape w st resp st' :
  get_alerts float_str w st = (Returns resp, st') ->
  status_code resp = 200 ->
  exists alerts,
    field "alerts" (body resp) = Some (JList alerts)
    /\ field "count" (body resp) = Some (JInt (Py.len alerts))
    /\ sublist (map (field "type") alerts)
               [Some (JStr "cpu"); Some (JStr "memory"); Some (JStr "disk")]
    /\ (forall ty, length (alerts_of_type ty alerts) <= 1)%nat
    /\ 0 <= Py.len alerts <= 3.
Proof.
  intros Hrun Hok.
  unfold get_alerts, try_except, bind, call, append_if in Hrun.
  destruct (w_cpu_percent w) as [cpu|?],
           (w_virtual_memory w) as [memory|?],
           (w_disk_usage w) as [disk|?];
    try destruct (80 <? cpu)%float;
    try destruct (85 <? vm_percent memory)%float;
    try destruct (90 <? du_percent disk)%float;
    cbn in Hrun; injection Hrun as <- <-; try discriminate Hok;
    eexists; (split; [reflexivity|]); (split; [reflexivity|]);
    (split; [cbn; once (repeat constructor)|]);
    (split; [|unfold Py.len; cbn [length]; lia]);
    intros ty; unfold alerts_of_type; cbn [List.filter];
    rewrite ?has_type_alert;
    repeat match goal with
           | |- context [String.eqb ?a ty] =>
               destruct (String.eqb_spec a ty) as [<-|?]
           end;
    cbn; lia.
Qed.

End Alerts.

(** ** Failures of the host queries, and what no handler touches *)

(** An error-level record passes both level filters. *)
Lemma app_logger_error_run msg st :
  app_logger_error msg st = (Returns tt, with_record (LogRecord ERROR msg) st).
Proof. reflexivity. Qed.

Section AnyRendering.

Variable float_str : float -> string.

(** C7: [/metrics] never raises.  When the four queries succeed it
    answers 200 with the CPU, memory and disk figures and the time of the
    answer; when one fails it answers 500 with the text of the first
    exception under [error] and hands an ERROR record to the logger.  A
    failed query in [/alerts] ends the same way. *)
Theorem os_query_failure_is_500 w st :
  (forall cpu memory disk count,
      w_cpu_percent w = Returns cpu ->
      w_virtual_memory w = Returns memory ->
      w_disk_usage w = Returns disk ->
      w_cpu_count w = Returns count ->
      system_metrics w st
      = (Returns
           (JDict [("cpu", JDict [("percent", JFloat cpu);
                                  ("count", json_of_cpu_count count)]);
                   ("memory", JDict [("total", JInt (vm_total memory));
                                     ("available", JInt (vm_available memory));
                                     ("percent", JFloat (vm_percent memory));
                                     ("used", JInt (vm_used memory))]);
                   ("disk", JDict [("total", JInt (du_total disk));
                                   ("used", JInt (du_used disk));
                                   ("free", JInt (du_free disk));
                                   ("percent", JFloat (du_percent disk))]);
                   ("timestamp", JStr (w_utcnow_isoformat w (st_clock_reads st)))],
            200),
         with_clock_read st))
  /\ (forall e,
        first_failure [failure (w_cpu_percent w); failure (w_virtual_memory w);
                       failure (w_disk_usage w); failure (w_cpu_count w)] = Some e ->
        system_metrics w st
        = (Returns (error_response e),
           with_record (LogRecord ERROR ("Error getting system metrics: " ++ str e)) st))
  /\ (forall e,
        first_failure [failure (w_cpu_percent w); failure (w_virtual_memory w);
                       failure (w_disk_usage w)] = Some e ->
        exists st',
          get_alerts float_str w st = (Returns (error_response e), st')
          /\ st_logged st'
             = (st_logged st ++ [LogRecord ERROR ("Error getting alerts: " ++ str e)])%list)
  /\ (exists resp st',
        system_metrics w st = (Returns resp, st')
        /\ (status_code resp = 200 \/ status_code resp = 500)).
Proof.
  split; [|split; [|split]].
  - intros cpu memory disk count Hcpu Hmem Hdisk Hcount.
    unfold system_metrics, try_except, bind, call.
    rewrite Hcpu, Hmem, Hdisk, Hcount. reflexivity.
  - intros e.
    unfold system_metrics, try_except, bind, call.
    destruct (w_cpu_percent w), (w_virtual_memory w), (w_disk_usage w), (w_cpu_count w);
      cbn [first_failure failure]; intros He;
      first [discriminate He | injection He as ->; reflexivity].
  - intros e.
    unfold get_alerts, try_except, bind, call, append_if.
    destruct (w_cpu_percent w) as [cpu|?],
             (w_virtual_memory w) as [memory|?],
             (w_disk_usage w) as [disk|?];
      cbn [first_failure failure]; intros He;
      first [discriminate He | injection He as ->];
      try destruct (80 <? cpu)%float;
      try destruct (85 <? vm_percent memory)%float;
      eexists; split; reflexivity.
  - unfold system_metrics, try_except, bind, call.
    destruct (w_cpu_percent w), (w_virtual_memory w), (w_disk_usage w), (w_cpu_count w);
      eexists _, _; (split; [reflexivity|]); cbn; auto.
Qed.

(** [/services] on any dictionary of endpoints: an answer with 200 or 503
    after one request per endpoint and one clock read, or the exception of
    the first request that raised past the [except] clause. *)
Lemma check_services_shape w st :
  (exists resp,
      check_services w st
      = (Returns resp, with_clock_read (with_requests_sent (length (st_SERVICES st)) st))
      /\ (status_code resp = 200 \/ status_code resp = 503))
  \/ (exists n msg,
        check_services w st
        = (Raises (Exn OtherException msg), with_requests_sent n st)
        /\ (1 <= n <= length (st_SERVICES st))%nat).
Proof.
  unfold check_services, bind, SERVICES_items.
  pose proof (check_each_shape w (st_SERVICES st) [] st) as Hloop.
  destruct (poll_from w (st_requests_sent st) (st_SERVICES st)) as [d|[n msg]].
  - destruct Hloop as [d' Hrun]. rewrite Hrun. left.
    eexists. split; [reflexivity|]. cbn [status_code snd].
    destruct (forallb status_is_healthy (dict_values d')); auto.
  - destruct Hloop as [Hrun Hn]. rewrite Hrun. right. eauto.
Qed.

Lemma check_services_SERVICES w st :
  st_SERVICES (snd (check_services w st)) = st_SERVICES st.
Proof.
  destruct (check_services_shape w st) as [(resp & Hrun & _) | (n & msg & Hrun & _)];
    rewrite Hrun; cbn [snd with_clock_read st_SERVICES];
    apply with_requests_sent_SERVICES.
Qed.

(** Every handler leaves the module-level dictionary as it found it. *)
Lemma dispatch_SERVICES r req w st :
  st_SERVICES (snd (dispatch float_str r req w st)) = st_SERVICES st.
Proof.
  destruct r; simpl dispatch.
  - reflexivity.
  - unfold system_metrics, try_except, bind, call.
    destruct (w_cpu_percent w), (w_virtual_memory w), (w_disk_usage w), (w_cpu_count w);
      reflexivity.
  - apply check_services_SERVICES.
  - unfold get_logs, try_except, bind, call.
    destruct (w_log_file w) as [|[content|e]]; reflexivity.
  - unfold get_alerts, try_except, bind, call, append_if.
    destruct (w_cpu_percent w) as [cpu|?],
             (w_virtual_memory w) as [memory|?],
             (w_disk_usage w) as [disk|?];
      try destruct (80 <? cpu)%float;
      try destruct (85 <? vm_percent memory)%float;
      try destruct (90 <? du_percent disk)%float;
      reflexivity.
  - reflexivity.
Qed.

Lemma serve_all_SERVICES requests :
  forall st, st_SERVICES (serve_all float_str requests st) = st_SERVICES st.
Proof.
  induction requests as [|[[r req] w] requests IH]; intros st; [reflexivity|].
  change (serve_all float_str ((r, req, w) :: requests) st)
    with (serve_all float_str requests (snd (dispatch float_str r req w st))).
  rewrite IH. apply dispatch_SERVICES.
Qed.

(** C8: [SERVICES] holds the three names api, database and redis, in that
    order, each with the URL of its environment variable or, when the
    variable is unset, the one placeholder URL; it is what the process
    starts with, no handler changes it, and so it is still there after
    any run of requests. *)
Theorem SERVICES_fixed environ :
  SERVICES environ
  = [("api", default placeholder_url (environ !! "API_URL"));
     ("database", default placeholder_url (environ !! "DB_URL"));
     ("redis", default placeholder_url (environ !! "REDIS_URL"))]
  /\ st_SERVICES (startup environ) = SERVICES environ
  /\ (forall r req w st,
        st_SERVICES (snd (dispatch float_str r req w st)) = st_SERVICES st)
  /\ (forall requests,
        st_SERVICES (serve_all float_str requests (startup environ)) = SERVICES environ).
Proof.
  split; [reflexivity|]. split; [reflexivity|]. split.
  - intros r req w st. apply dispatch_SERVICES.
  - intros requests. rewrite serve_all_SERVICES. reflexivity.
Qed.

End AnyRendering.

Lemma get_alerts_thresholds_witness :
  exists alerts ts st',
    get_alerts sample_float_str hot_world (startup ∅)
    = (Returns (JDict [("alerts", JList alerts);
                       ("count", JInt (Py.len alerts));
                       ("timestamp", JStr ts)], 200), st')
    /\ (exists t,
          alerts_of_type "cpu" alerts
          = [JDict [("level", JStr "warning");
                    ("type", JStr "cpu");
                    ("message", JStr "High CPU usage: 91.5%");
                    ("timestamp", JStr t)]])
    /\ (exists _ : string, alerts_of_type "memory" alerts = [])
    /\ (exists t,
          alerts_of_type "disk" alerts
          = [JDict [("level", JStr "critical");
                    ("type", JStr "disk");
                    ("message", JStr "Low disk space: 95.0% used");
                    ("timestamp", JStr t)]]).
Proof.
  exact (get_alerts_thresholds sample_float_str hot_world (startup ∅) 91.5%float
           {| vm_total := 8000; vm_available := 6000; vm_percent := 25%float; vm_used := 2000 |}
           {| du_total := 100000; du_used := 95000; du_free := 5000; du_percent := 95%float |}
           eq_refl eq_refl eq_refl).
Defined.

Lemma get_alerts_shape_witness :
  let resp :=
    (JDict [("alerts",
             JList [alert "warning" "cpu" "High CPU usage: 91.5%" "2024-01-01T00:00:00";
                    alert "critical" "disk" "Low disk space: 95.0% used" "2024-01-01T00:00:01"]);
            ("count", JInt 2);
            ("timestamp", JStr "2024-01-01T00:00:02")], 200) in
  exists alerts,
    field "alerts" (body resp) = Some (JList alerts)
    /\ field "count" (body resp) = Some (JInt (Py.len alerts))
    /\ sublist (map (field "type") alerts)
               [Some (JStr "cpu"); Some (JStr "memory"); Some (JStr "disk")]
    /\ (forall ty, length (alerts_of_type ty alerts) <= 1)%nat
    /\ 0 <= Py.len alerts <= 3.
Proof.
  intros resp.
  apply (get_alerts_shape sample_float_str hot_world (startup ∅) resp
           (with_clock_read (with_clock_read (with_clock_read (startup ∅))))).
  - vm_compute. reflexivity.
  - reflexivity.
Defined.

Lemma os_query_failure_is_500_witness :
  let e := Exn OSError "[Errno 2] No such file or directory: '/'" in
  system_metrics no_disk_world (startup ∅)
  = (Returns (JDict [("error", JStr (str e))], 500),
     with_record (LogRecord ERROR ("Error getting system metrics: " ++ str e)) (startup ∅))
  /\ exists st',
      get_alerts sample_float_str no_disk_world (startup ∅)
      = (Returns (JDict [("error", JStr (str e))], 500), st')
      /\ st_logged st'
         = [LogRecord INFO "SafeScan Monitoring startup";
            LogRecord ERROR ("Error getting alerts: " ++ str e)].
Proof.
  intros e.
  destruct (os_query_failure_is_500 sample_float_str no_disk_world (startup ∅))
    as (_ & Hmetrics & Halerts & _).
  split.
  - exact (Hmetrics e eq_refl).
  - exact (Halerts e eq_refl).
Defined.

(** ** Rotation of the log file *)

Lemma emit_backups_bound fs msg :
  (length (backups fs) <= 10)%nat ->
  (length (backups (emit file_handler fs msg)) <= 10)%nat.
Proof.
  intros Hfs. unfold emit.
  destruct (shouldRollover file_handler fs msg); [|exact Hfs].
  unfold doRollover. simpl. rewrite length_take. lia.
Qed.

Lemma emit_all_backups_bound msgs :
  forall fs,
    (length (backups fs) <= 10)%nat ->
    (length (backups (emit_all file_handler fs msgs)) <= 10)%nat.
Proof.
  induction msgs as [|m msgs IH]; intros fs Hfs; [exact Hfs|].
  change (emit_all file_handler fs (m :: msgs))
    with (emit_all file_handler (emit file_handler fs m) msgs).
  apply IH, emit_backups_bound, Hfs.
Qed.

(** C6 as the specification states it fails: a base file of 10,239,900
    bytes is rolled over by a record of 100 characters, well before it
    holds 10,485,760 bytes. *)
Lemma file_handler_rolls_over_below_10485760 :
  shouldRollover file_handler (LogFiles 10239900 []) (ascii_record 100) = true
  /\ 10239900 + 100 < 10485760
  /\ base_size (emit file_handler (LogFiles 10239900 []) (ascii_record 100)) = 100
  /\ backups (emit file_handler (LogFiles 10239900 []) (ascii_record 100)) = [10239900].
Proof. repeat split. Qed.

(** C6, amended: [file_handler] is built with [maxBytes = 10240000] and
    [backupCount = 10].  It rolls the base file over exactly when its size
    in bytes plus the length in characters of the record about to be
    written reaches 10,240,000; a rollover keeps the ten most recent files
    as backups, so there are never more than ten, and ten there can be. *)
Theorem file_handler_rotation :
  maxBytes file_handler = 10240000
  /\ backupCount file_handler = 10
  /\ (forall fs msg,
        shouldRollover file_handler fs msg = true
        <-> 10240000 <= base_size fs + msg_chars msg)
  /\ (forall fs,
        doRollover file_handler fs
        = {| base_size := 0; backups := take 10 (base_size fs :: backups fs) |})
  /\ (forall msgs,
        (length (backups (emit_all file_handler (LogFiles 0 []) msgs)) <= 10)%nat)
  /\ (exists msgs,
        length (backups (emit_all file_handler (LogFiles 0 []) msgs)) = 10%nat).
Proof.
  split; [reflexivity|]. split; [reflexivity|]. split; [|split; [|split]].
  - intros fs msg. unfold shouldRollover. simpl.
    rewrite Z.leb_le. reflexivity.
  - intros fs. reflexivity.
  - intros msgs. apply emit_all_backups_bound. simpl. lia.
  - exists (replicate 11 (ascii_record 10240000)). vm_compute. reflexivity.
Qed.

(** * Further properties

    What the handlers do beyond the claims above: the rest of [get_logs],
    the conduct of [check_services] towards the network, what every route
    has in common, and the consequences of the logging configuration. *)

(** ** More on the log tail *)

Lemma get_logs_tail_witness :
  let content := line "first" ++ line " second" ++ "third " in
  get_logs (Request (ArgInt 2)) (calm_world (File (Returns content))) (startup ∅)
  = (Returns (JDict [("logs", JList [JStr "second"; JStr "third"]);
                     ("total_lines", JInt 3);
                     ("returned_lines", JInt 2)], 200), startup ∅).
Proof.
  exact (get_logs_tail (line "first" ++ line " second" ++ "third ") 2
           (calm_world (File (Returns (line "first" ++ line " second" ++ "third "))))
           (startup ∅) eq_refl ltac:(lia)).
Defined.

(** The request as it comes: the [lines] argument converted, the file
    read, the lines kept. *)
Lemma get_logs_readable_any content a w st :
  w_log_file w = File (Returns content) ->
  get_logs (Request a) w st
  = (Returns (logs_payload (Py.readlines content)
                (recent (Py.readlines content) (args_get_int a 100)), 200), st).
Proof.
  intros Hfile. unfold get_logs. rewrite Hfile. reflexivity.
Qed.

(** Whatever [lines] is, what is kept is what is left after dropping a
    prefix. *)
Lemma recent_is_drop (logs : list string) n :
  recent logs n = drop (length logs - length (recent logs n)) logs.
Proof.
  unfold recent. destruct (Py.len logs >? n).
  - unfold Py.slice_from.
    set (k := Z.to_nat _). rewrite length_drop.
    destruct (Nat.le_gt_cases k (length logs)) as [Hle|Hgt].
    + f_equal. lia.
    + rewrite !drop_ge by lia. reflexivity.
  - rewrite Nat.sub_diag. reflexivity.
Qed.

(** X2: for every [lines] argument, of either sign, missing or malformed,
    a readable file is answered with status 200 and a suffix of its lines:
    the entries are consecutive lines of the file, in file order, ending
    with its last line, and never more than the file holds. *)
Theorem get_logs_returns_a_suffix content a w st :
  w_log_file w = File (Returns content) ->
  exists kept,
    get_logs (Request a) w st = (Returns (logs_payload (Py.readlines content) kept, 200), st)
    /\ kept `suffix_of` Py.readlines content
    /\ kept = drop (length (Py.readlines content) - length kept) (Py.readlines content)
    /\ Py.len kept <= Py.len (Py.readlines content).
Proof.
  intros Hfile.
  exists (recent (Py.readlines content) (args_get_int a 100)).
  split; [apply get_logs_readable_any, Hfile|].
  pose proof (recent_is_drop (Py.readlines content) (args_get_int a 100)) as Hdrop.
  assert (Hsuf : recent (Py.readlines content) (args_get_int a 100)
                 `suffix_of` Py.readlines content)
    by (rewrite Hdrop; apply suffix_drop).
  split; [exact Hsuf|]. split; [exact Hdrop|].
  apply suffix_length in Hsuf. unfold Py.len. lia.
Qed.

Lemma get_logs_returns_a_suffix_witness :
  let content := line "a" ++ line "b" ++ line "c" in
  exists kept,
    get_logs (Request (ArgInt (-1))) (calm_world (File (Returns content))) (startup ∅)
    = (Returns (logs_payload (Py.readlines content) kept, 200), startup ∅)
    /\ kept `suffix_of` Py.readlines content
    /\ kept = drop (length (Py.readlines content) - length kept) (Py.readlines content)
    /\ Py.len kept <= Py.len (Py.readlines content).
Proof.
  exact (get_logs_returns_a_suffix (line "a" ++ line "b" ++ line "c") (ArgInt (-1))
           (calm_world (File (Returns (line "a" ++ line "b" ++ line "c"))))
           (startup ∅) eq_refl).
Defined.

(** X3: a [lines] argument that is missing or that [int] rejects is not
    an error: the request is served as [lines=100], with the last
    [min 100 total] lines. *)
Theorem get_logs_default_is_100 content a w st :
  w_log_file w = File (Returns content) ->
  a = ArgMissing \/ (exists raw, a = ArgNotInt raw) ->
  let logs := Py.readlines content in
  let k := Z.min 100 (Py.len logs) in
  get_logs (Request a) w st
  = (Returns (JDict [("logs", JList (map (fun log => JStr (Py.strip log))
                                        (last_n (Z.to_nat k) logs)));
                     ("total_lines", JInt (Py.len logs));
                     ("returned_lines", JInt k)], 200), st).
Proof.
  intros Hfile Harg logs k.
  rewrite (get_logs_readable_any content a w st Hfile).
  assert (Hlines : args_get_int a 100 = 100)
    by (destruct Harg as [->|[raw ->]]; reflexivity).
  rewrite Hlines.
  destruct (recent_positive logs 100 ltac:(lia)) as [Hrec Hlen].
  unfold logs_payload. fold logs. rewrite Hlen, Hrec. reflexivity.
Qed.

Lemma get_logs_default_is_100_witness :
  let content := line "only" in
  get_logs (Request (ArgNotInt "ten")) (calm_world (File (Returns content))) (startup ∅)
  = (Returns (JDict [("logs", JList [JStr "only"]);
                     ("total_lines", JInt 1);
                     ("returned_lines", JInt 1)], 200), startup ∅).
Proof.
  exact (get_logs_default_is_100 (line "only") (ArgNotInt "ten")
           (calm_world (File (Returns (line "only")))) (startup ∅)
           eq_refl (or_intror (ex_intro _ "ten" eq_refl))).
Defined.

(** X4: a log file that is there but cannot be read makes [/logs] answer
    500 with the text of the exception, and that text is logged at error
    level behind "Error reading logs: "; the [lines] argument plays no
    part. *)
Theorem get_logs_read_failure a e w st :
  w_log_file w = File (Raises e) ->
  get_logs (Request a) w st
  = (Returns (JDict [("error", JStr (str e))], 500),
     with_record (LogRecord ERROR ("Error reading logs: " ++ str e)) st).
Proof.
  intros Hfile. unfold get_logs. rewrite Hfile. reflexivity.
Qed.

Lemma get_logs_read_failure_witness :
  let e := Exn OSError "[Errno 13] Permission denied: 'logs/monitoring.log'" in
  get_logs (Request ArgMissing) (calm_world (File (Raises e))) (startup ∅)
  = (Returns (JDict [("error", JStr (str e))], 500),
     with_record (LogRecord ERROR ("Error reading logs: " ++ str e)) (startup ∅)).
Proof.
  exact (get_logs_read_failure ArgMissing
           (Exn OSError "[Errno 13] Permission denied: 'logs/monitoring.log'")
           (calm_world (File (Raises (Exn OSError "[Errno 13] Permission denied: 'logs/monitoring.log'"))))
           (startup ∅) eq_refl).
Defined.

(** *** Lines and their terminators *)

Lemma translate_newlines_empty s : Py.translate_newlines s = "" -> s = "".
Proof.
  destruct s as [|c s]; [reflexivity|]. simpl.
  destruct (Ascii.eqb c Py.CR); [|discriminate].
  destruct s as [|c' s]; [discriminate|].
  destruct (Ascii.eqb c' Py.LF); discriminate.
Qed.

Lemma split_keepends_empty t : Py.split_keepends t = [] -> t = "".
Proof.
  destruct t as [|c t]; [reflexivity|]. simpl.
  destruct (Ascii.eqb c Py.LF); [discriminate|].
  destruct (Py.split_keepends t); discriminate.
Qed.

Lemma readlines_empty content : Py.readlines content = [] <-> content = "".
Proof.
  split; [|intros ->; reflexivity].
  intros H. apply translate_newlines_empty, split_keepends_empty, H.
Qed.

(** Text-mode reading leaves no carriage return behind. *)
Lemma translate_newlines_no_CR s : mentions Py.CR (Py.translate_newlines s) = false.
Proof.
  induction s as [|c s IH]; [reflexivity|].
  cbn [Py.translate_newlines].
  destruct (Ascii.eqb_spec c Py.CR) as [->|Hc].
  - destruct s as [|c' s]; [reflexivity|].
    destruct (Ascii.eqb_spec c' Py.LF) as [->|Hc'].
    + exact IH.
    + exact IH.
  - cbn [mentions]. rewrite IH, orb_false_r.
    apply Ascii.eqb_neq. congruence.
Qed.

(** The lines carry no character the text lacks. *)
Lemma split_keepends_no_char c t :
  mentions c t = false ->
  Forall (fun l => mentions c l = false) (Py.split_keepends t).
Proof.
  induction t as [|c' t IH]; intros Hc; [constructor|].
  cbn [mentions] in Hc. apply orb_false_iff in Hc as [Hcc' Ht].
  specialize (IH Ht). cbn [Py.split_keepends].
  destruct (Ascii.eqb c' Py.LF).
  - constructor; [|exact IH]. cbn [mentions]. rewrite Hcc'. reflexivity.
  - destruct (Py.split_keepends t) as [|l ls].
    + repeat constructor. cbn [mentions]. rewrite Hcc'. reflexivity.
    + apply Forall_cons in IH as [Hl Hls].
      constructor; [|exact Hls]. cbn [mentions]. rewrite Hcc', Hl. reflexivity.
Qed.

(** Every line ends at its first terminator. *)
Lemma split_keepends_lf_only_last t : Forall (fun l => lf_only_last l = true) (Py.split_keepends t).
Proof.
  induction t as [|c t IH]; [constructor|].
  cbn [Py.split_keepends].
  destruct (Ascii.eqb c Py.LF) eqn:Hc.
  - constructor; [reflexivity | exact IH].
  - destruct (Py.split_keepends t) as [|l ls]; [repeat constructor|].
    apply Forall_cons in IH as [Hl Hls].
    constructor; [|exact Hls].
    cbn [lf_only_last]. destruct l; [reflexivity|].
    rewrite Hc, Hl. reflexivity.
Qed.

(** *** Stripping *)

Lemma lf_only_last_tail c s : lf_only_last (String c s) = true -> lf_only_last s = true.
Proof.
  destruct s as [|c' s]; [reflexivity|].
  cbn [lf_only_last]. intros H. apply andb_true_iff in H as [_ H]. exact H.
Qed.

Lemma lstrip_lf_only_last s : lf_only_last s = true -> lf_only_last (Py.lstrip s) = true.
Proof.
  induction s as [|c s IH]; intros H; [reflexivity|].
  cbn [Py.lstrip]. destruct (Py.isspace c); [|exact H].
  apply IH, (lf_only_last_tail c), H.
Qed.

Lemma lstrip_no_char c s : mentions c s = false -> mentions c (Py.lstrip s) = false.
Proof.
  induction s as [|c' s IH]; intros H; [reflexivity|].
  cbn [Py.lstrip]. destruct (Py.isspace c'); [|exact H].
  cbn [mentions] in H. apply orb_false_iff in H as [_ H]. apply IH, H.
Qed.

Lemma lstrip_first_char s : is_space_at (first_char (Py.lstrip s)) = false.
Proof.
  induction s as [|c s IH]; [reflexivity|].
  cbn [Py.lstrip]. destruct (Py.isspace c) eqn:Hc; [exact IH|].
  exact Hc.
Qed.

(** What [rstrip] makes of a non-empty string, by cases. *)
Lemma rstrip_cons c s :
  Py.rstrip (String c s)
  = match Py.rstrip s with
    | EmptyString => if Py.isspace c then EmptyString else String c EmptyString
    | String _ _ => String c (Py.rstrip s)
    end.
Proof. cbn [Py.rstrip]. destruct (Py.rstrip s); reflexivity. Qed.

Lemma isspace_LF : Py.isspace Py.LF = true.
Proof. reflexivity. Qed.

Lemma rstrip_no_LF s : lf_only_last s = true -> mentions Py.LF (Py.rstrip s) = false.
Proof.
  induction s as [|c s IH]; intros H; [reflexivity|].
  rewrite rstrip_cons.
  destruct s as [|c' s].
  - cbn [Py.rstrip]. destruct (Py.isspace c) eqn:Hc; [reflexivity|].
    cbn [mentions]. rewrite orb_false_r. apply Ascii.eqb_neq.
    intros <-. rewrite isspace_LF in Hc. discriminate.
  - cbn [lf_only_last] in H. apply andb_true_iff in H as [Hc Hs].
    apply negb_true_iff in Hc. rewrite Ascii.eqb_sym in Hc.
    specialize (IH Hs).
    destruct (Py.rstrip (String c' s)) as [|c'' r].
    + destruct (Py.isspace c); [reflexivity|].
      cbn [mentions]. rewrite Hc. reflexivity.
    + cbn [mentions] in *. rewrite Hc. exact IH.
Qed.

Lemma rstrip_no_char c s : mentions c s = false -> mentions c (Py.rstrip s) = false.
Proof.
  induction s as [|c' s IH]; intros H; [reflexivity|].
  cbn [mentions] in H. apply orb_false_iff in H as [Hc Hs].
  specialize (IH Hs). rewrite rstrip_cons.
  destruct (Py.rstrip s) as [|c'' r].
  - destruct (Py.isspace c'); [reflexivity|].
    cbn [mentions]. rewrite Hc. reflexivity.
  - cbn [mentions] in *. rewrite Hc. exact IH.
Qed.

Lemma rstrip_last_char s : is_space_at (last_char (Py.rstrip s)) = false.
Proof.
  induction s as [|c s IH]; [reflexivity|].
  rewrite rstrip_cons.
  destruct (Py.rstrip s) as [|c' r].
  - destruct (Py.isspace c) eqn:Hc; [reflexivity | exact Hc].
  - exact IH.
Qed.

Lemma rstrip_first_char s :
  is_space_at (first_char s) = false -> is_space_at (first_char (Py.rstrip s)) = false.
Proof.
  destruct s as [|c s]; intros H; [reflexivity|].
  rewrite rstrip_cons.
  destruct (Py.rstrip s); [|exact H].
  destruct (Py.isspace c); [reflexivity | exact H].
Qed.

Lemma lstrip_fixed s : is_space_at (first_char s) = false -> Py.lstrip s = s.
Proof.
  destruct s as [|c s]; intros H; [reflexivity|].
  cbn in H. cbn [Py.lstrip]. rewrite H. reflexivity.
Qed.

Lemma rstrip_fixed s : is_space_at (last_char s) = false -> Py.rstrip s = s.
Proof.
  induction s as [|c s IH]; intros H; [reflexivity|].
  rewrite rstrip_cons.
  destruct s as [|c' s].
  - cbn in H. cbn [Py.rstrip]. rewrite H. reflexivity.
  - change (last_char (String c (String c' s))) with (last_char (String c' s)) in H.
    rewrite (IH H). reflexivity.
Qed.

(** A stripped line of the file is a clean entry. *)
Lemma strip_line_clean l :
  lf_only_last l = true -> mentions Py.CR l = false -> clean_entry (Py.strip l).
Proof.
  intros Hlf Hcr. unfold clean_entry, Py.strip.
  pose proof (rstrip_first_char _ (lstrip_first_char l)) as Hfirst.
  pose proof (rstrip_last_char (Py.lstrip l)) as Hlast.
  split; [apply rstrip_no_LF, lstrip_lf_only_last, Hlf|].
  split; [apply rstrip_no_char, lstrip_no_char, Hcr|].
  split; [exact Hfirst|]. split; [exact Hlast|].
  rewrite (lstrip_fixed _ Hfirst). apply rstrip_fixed, Hlast.
Qed.

Lemma readlines_lines_clean content :
  Forall (fun l => clean_entry (Py.strip l)) (Py.readlines content).
Proof.
  unfold Py.readlines.
  pose proof (split_keepends_lf_only_last (Py.translate_newlines content)) as Hlf.
  pose proof (split_keepends_no_char Py.CR _ (translate_newlines_no_CR content)) as Hcr.
  induction Hlf as [|l ls Hl _ IH]; [constructor|].
  apply Forall_cons in Hcr as [Hcr Hcrs].
  constructor; [apply strip_line_clean; assumption | apply IH, Hcrs].
Qed.

(** X5: [total_lines] is 0 exactly for an empty file.  A file that is
    there but empty is answered, for every [lines] argument, with no entry
    and both counts at 0; any other readable file has at least one line. *)
Theorem get_logs_empty_file_only content a w st :
  w_log_file w = File (Returns content) ->
  (content = "" ->
   get_logs (Request a) w st
   = (Returns (JDict [("logs", JList []);
                      ("total_lines", JInt 0);
                      ("returned_lines", JInt 0)], 200), st))
  /\ (content <> "" ->
      exists resp total,
        get_logs (Request a) w st = (Returns resp, st)
        /\ field "total_lines" (body resp) = Some (JInt total)
        /\ 1 <= total).
Proof.
  intros Hfile. split.
  - intros ->. rewrite (get_logs_readable_any "" a w st Hfile).
    change (Py.readlines "") with (@nil string).
    unfold recent, Py.slice_from. rewrite drop_nil.
    destruct (Py.len [] >? args_get_int a 100); reflexivity.
  - intros Hne. eexists _, _.
    split; [apply get_logs_readable_any, Hfile|].
    split; [reflexivity|].
    unfold Py.len.
    destruct (Py.readlines content) as [|l ls] eqn:Hlines; [|simpl; lia].
    apply readlines_empty in Hlines. contradiction.
Qed.

Lemma get_logs_empty_file_only_witness :
  get_logs (Request (ArgInt (-3))) (calm_world (File (Returns ""))) (startup ∅)
  = (Returns (JDict [("logs", JList []);
                     ("total_lines", JInt 0);
                     ("returned_lines", JInt 0)], 200), startup ∅).
Proof.
  exact (proj1 (get_logs_empty_file_only "" (ArgInt (-3))
                  (calm_world (File (Returns ""))) (startup ∅) eq_refl) eq_refl).
Defined.

(** X6: every entry [/logs] returns from a readable file is one clean
    line: it holds no line feed and no carriage return, it neither starts
    nor ends with whitespace, and stripping it again changes nothing. *)
Theorem get_logs_entries_are_clean content a w st :
  w_log_file w = File (Returns content) ->
  exists entries resp,
    get_logs (Request a) w st = (Returns resp, st)
    /\ field "logs" (body resp) = Some (JList (map JStr entries))
    /\ field "returned_lines" (body resp) = Some (JInt (Py.len entries))
    /\ Forall clean_entry entries.
Proof.
  intros Hfile.
  set (kept := recent (Py.readlines content) (args_get_int a 100)).
  exists (map Py.strip kept). eexists. split.
  - rewrite (get_logs_readable_any content a w st Hfile). reflexivity.
  - unfold logs_payload. fold kept. cbn [body fst field dict_get String.eqb Ascii.eqb Bool.eqb].
    split; [rewrite map_map; reflexivity|].
    split; [unfold Py.len; rewrite length_map; reflexivity|].
    apply Forall_map.
    unfold kept. rewrite recent_is_drop.
    apply Forall_drop, readlines_lines_clean.
Qed.

Lemma get_logs_entries_are_clean_witness :
  let content := line "  padded  " ++ String Py.CR (line "crlf") ++ "last" in
  exists entries resp,
    get_logs (Request ArgMissing) (calm_world (File (Returns content))) (startup ∅)
    = (Returns resp, startup ∅)
    /\ field "logs" (body resp) = Some (JList (map JStr entries))
    /\ field "returned_lines" (body resp) = Some (JInt (Py.len entries))
    /\ Forall clean_entry entries.
Proof.
  exact (get_logs_entries_are_clean
           (line "  padded  " ++ String Py.CR (line "crlf") ++ "last") ArgMissing
           (calm_world (File (Returns (line "  padded  " ++ String Py.CR (line "crlf") ++ "last"))))
           (startup ∅) eq_refl).
Defined.

(** ** The service poller and the network *)

(** X7: [/services] and its requests.  When no request raises an
    exception other than a [RequestException], every configured endpoint is
    polled exactly once, also after one of them has failed: the entry under
    each name is the classification of the request made to that endpoint's
    URL, three requests are sent, the clock is read once, nothing is
    logged, and the names in the answer are api, database and redis, in
    that order.  When the request for an endpoint is the first to raise
    another exception, the polling stops there: the handler raises that
    exception after the requests made so far, without reading the clock
    and without logging. *)
Theorem check_services_polls_each_endpoint_once environ w st :
  st_SERVICES st = SERVICES environ ->
  ((forall i name url,
       SERVICES environ !! i = Some (name, url) ->
       is_caught (outcome_at w st i url) = true) ->
   exists resp entries st',
     check_services w st = (Returns resp, st')
     /\ field "services" (body resp) = Some (JDict entries)
     /\ entries.*1 = ["api"; "database"; "redis"]
     /\ (forall i name url,
           SERVICES environ !! i = Some (name, url) ->
           exists c,
             outcome_at w st i url = Caught c
             /\ dict_get name entries = Some (entry_of c))
     /\ field "timestamp" (body resp) = Some (JStr (w_utcnow_isoformat w (st_clock_reads st)))
     /\ st_requests_sent st' = (st_requests_sent st + 3)%nat
     /\ st_clock_reads st' = S (st_clock_reads st)
     /\ st_logged st' = st_logged st)
  /\ (forall i name url msg,
        SERVICES environ !! i = Some (name, url) ->
        outcome_at w st i url = RaisedOther msg ->
        (forall j name' url',
            (j < i)%nat -> SERVICES environ !! j = Some (name', url') ->
            is_caught (outcome_at w st j url') = true) ->
        exists st',
          check_services w st = (Raises (Exn OtherException msg), st')
          /\ st_requests_sent st' = (st_requests_sent st + S i)%nat
          /\ st_clock_reads st' = st_clock_reads st
          /\ st_logged st' = st_logged st).
Proof.
  intros Hcfg.
  assert (Hnd : NoDup (st_SERVICES st).*1) by (rewrite Hcfg; apply SERVICES_NoDup).
  rewrite (check_services_run w st Hnd). rewrite Hcfg.
  unfold outcome_at. split.
  - intros Hcaught.
    destruct (poll_from_all_caught w (SERVICES environ) (st_requests_sent st) Hcaught)
      as [d Hd].
    rewrite Hd. cbv zeta.
    eexists _, d, _. split; [reflexivity|].
    split; [reflexivity|].
    split; [rewrite (poll_from_names w _ _ d Hd); apply SERVICES_names|].
    split.
    { intros i name url Hi.
      exact (dict_get_poll_from w (SERVICES environ) (st_requests_sent st) d i name url
               (SERVICES_NoDup environ) Hd Hi). }
    split.
    { cbn [body fst field dict_get String.eqb Ascii.eqb Bool.eqb].
      rewrite with_requests_sent_clock. reflexivity. }
    cbn [with_clock_read st_requests_sent st_clock_reads st_logged].
    rewrite with_requests_sent_count, with_requests_sent_clock, with_requests_sent_logged.
    repeat split.
  - intros i name url msg Hi Hout Hbefore.
    rewrite (poll_from_first_escape w (SERVICES environ) (st_requests_sent st)
               i name url msg Hi Hout Hbefore).
    eexists. split; [reflexivity|].
    rewrite with_requests_sent_count, with_requests_sent_clock, with_requests_sent_logged.
    repeat split.
Qed.

Lemma check_services_polls_each_endpoint_once_witness :
  (exists resp entries st',
      check_services api_down_world (startup ∅) = (Returns resp, st')
      /\ field "services" (body resp) = Some (JDict entries)
      /\ entries.*1 = ["api"; "database"; "redis"]
      /\ (forall i name url,
            SERVICES ∅ !! i = Some (name, url) ->
            exists c,
              outcome_at api_down_world (startup ∅) i url = Caught c
              /\ dict_get name entries = Some (entry_of c))
      /\ field "timestamp" (body resp)
         = Some (JStr (w_utcnow_isoformat api_down_world (st_clock_reads (startup ∅))))
      /\ st_requests_sent st' = (st_requests_sent (startup ∅) + 3)%nat
      /\ st_clock_reads st' = S (st_clock_reads (startup ∅))
      /\ st_logged st' = st_logged (startup ∅))
  /\ (exists st',
        check_services unparsable_db_world (startup unparsable_db_environ)
        = (Raises (Exn OtherException "Failed to parse: 'a..b', label empty or too long"), st')
        /\ st_requests_sent st' = (st_requests_sent (startup unparsable_db_environ) + 2)%nat
        /\ st_clock_reads st' = st_clock_reads (startup unparsable_db_environ)
        /\ st_logged st' = st_logged (startup unparsable_db_environ)).
Proof.
  split.
  - apply (proj1 (check_services_polls_each_endpoint_once ∅ api_down_world (startup ∅) eq_refl)).
    intros [|i] name url _; reflexivity.
  - assert (Hcfg : st_SERVICES (startup unparsable_db_environ) = SERVICES unparsable_db_environ)
      by reflexivity.
    apply (proj2 (check_services_polls_each_endpoint_once
                    unparsable_db_environ unparsable_db_world
                    (startup unparsable_db_environ) Hcfg)
             1%nat "database" "http://a..b/").
    + vm_compute. reflexivity.
    + vm_compute. reflexivity.
    + intros [|j] name' url' Hj Hitem; [|lia].
      vm_compute in Hitem. injection Hitem as <- <-. vm_compute. reflexivity.
Defined.

(** X8: [/services] asks nothing of the host beyond the three requests it
    sends and the one clock read: two hosts that agree on those get the
    same answer and leave the same state, whatever their CPU, memory, disk
    and log file are like. *)
Theorem check_services_reads_only_its_requests environ w1 w2 st :
  st_SERVICES st = SERVICES environ ->
  (forall i name url,
      SERVICES environ !! i = Some (name, url) ->
      outcome_at w1 st i url = outcome_at w2 st i url) ->
  w_utcnow_isoformat w1 (st_clock_reads st) = w_utcnow_isoformat w2 (st_clock_reads st) ->
  check_services w1 st = check_services w2 st.
Proof.
  intros Hcfg Hnet Hclock.
  assert (Hnd : NoDup (st_SERVICES st).*1) by (rewrite Hcfg; apply SERVICES_NoDup).
  rewrite (check_services_run w1 st Hnd), (check_services_run w2 st Hnd).
  rewrite Hcfg.
  rewrite (poll_from_ext w1 w2 (SERVICES environ) (st_requests_sent st) Hnet).
  destruct (poll_from w2 (st_requests_sent st) (SERVICES environ)) as [d|[n msg]];
    [|reflexivity].
  cbv zeta. rewrite !with_requests_sent_clock, Hclock. reflexivity.
Qed.

Lemma check_services_reads_only_its_requests_witness :
  check_services (calm_world NoFile) (startup ∅) = check_services no_disk_world (startup ∅).
Proof.
  apply (check_services_reads_only_its_requests ∅ (calm_world NoFile) no_disk_world (startup ∅)).
  - reflexivity.
  - intros i name url _. reflexivity.
  - vm_compute. reflexivity.
Defined.

(** ** What all routes have in common *)

Section EveryRoute.

Variable float_str : float -> string.

(** The run of any route, by cases on how it ends: an answer without a
    log record, an error answer with its record, or, for [/services]
    alone, an exception that is no [RequestException]. *)
Lemma dispatch_cases r req w st :
  (exists resp st',
      dispatch float_str r req w st = (Returns resp, st')
      /\ ((st_logged st' = st_logged st
           /\ (status_code resp = 200 \/ (status_code resp = 503 /\ r = Services)))
          \/ (status_code resp = 500
              /\ (r = Metrics \/ r = Logs \/ r = Alerts)
              /\ exists context text,
                  body resp = JDict [("error", JStr text)]
                  /\ st_logged st' = (st_logged st ++ [LogRecord ERROR (context ++ text)])%list)))
  \/ (r = Services
      /\ exists e st',
          dispatch float_str r req w st = (Raises e, st')
          /\ is_RequestException e = false
          /\ st_logged st' = st_logged st).
Proof.
  destruct r; simpl dispatch.
  - left. eexists _, _. split; [reflexivity|]. left. split; [reflexivity | left; reflexivity].
  - left. unfold system_metrics, try_except, bind, call.
    destruct (w_cpu_percent w), (w_virtual_memory w), (w_disk_usage w), (w_cpu_count w);
      eexists _, _; (split; [reflexivity|]);
      first [ left; split; [reflexivity | left; reflexivity]
            | right; split; [reflexivity|]; split; [auto|];
              eexists _, _; split; reflexivity ].
  - destruct (check_services_shape w st) as [(resp & Hrun & Hcode) | (n & msg & Hrun & _)];
      rewrite Hrun.
    + left. eexists _, _. split; [reflexivity|]. left.
      split; [apply with_requests_sent_logged|].
      destruct Hcode as [H200|H503]; auto.
    + right. split; [reflexivity|]. eexists _, _. split; [reflexivity|].
      split; [reflexivity | apply with_requests_sent_logged].
  - left. unfold get_logs, try_except, bind, call.
    destruct (w_log_file w) as [|[content|e]];
      eexists _, _; (split; [reflexivity|]);
      first [ left; split; [reflexivity | left; reflexivity]
            | right; split; [reflexivity|]; split; [auto|];
              eexists _, _; split; reflexivity ].
  - left. unfold get_alerts, try_except, bind, call, append_if.
    destruct (w_cpu_percent w) as [cpu|?],
             (w_virtual_memory w) as [memory|?],
             (w_disk_usage w) as [disk|?];
      try destruct (80 <? cpu)%float;
      try destruct (85 <? vm_percent memory)%float;
      try destruct (90 <? du_percent disk)%float;
      eexists _, _; (split; [reflexivity|]);
      first [ left; split; [reflexivity | left; reflexivity]
            | right; split; [reflexivity|]; split; [auto|];
              eexists _, _; split; reflexivity ].
  - left. eexists _, _. split; [reflexivity|]. left. split; [reflexivity | left; reflexivity].
Qed.

(** X9: which routes answer, and with what.  Every route but [/services]
    answers every request; [/services] answers unless one of its requests
    raises an exception that is no [RequestException], which it lets
    through.  An answer has status 200, 500 or 503; [/health] and [/ping]
    always answer 200, 503 comes from [/services] alone, and 500 only from
    [/metrics], [/logs] and [/alerts]. *)
Theorem dispatch_answers_or_leaks r req w st :
  ((exists resp st',
       dispatch float_str r req w st = (Returns resp, st')
       /\ (status_code resp = 200 \/ status_code resp = 500 \/ status_code resp = 503)
       /\ (r = Health \/ r = Ping -> status_code resp = 200)
       /\ (status_code resp = 503 -> r = Services)
       /\ (status_code resp = 500 -> r = Metrics \/ r = Logs \/ r = Alerts))
   \/ (r = Services
       /\ exists e st',
           dispatch float_str r req w st = (Raises e, st')
           /\ is_RequestException e = false))
  /\ (r = Services ->
      (exists e st', dispatch float_str r req w st = (Raises e, st'))
      <-> (exists i name url msg,
             st_SERVICES st !! i = Some (name, url)
             /\ outcome_at w st i url = RaisedOther msg)).
Proof.
  split.
  - destruct (dispatch_cases r req w st)
      as [(resp & st' & Hrun & Hcases) | (Hr & e & st' & Hrun & He & _)].
    + left. exists resp, st'. split; [exact Hrun|].
      destruct Hcases as [[_ [H200|[H503 Hr]]] | (H500 & Hr & _)].
      * rewrite H200. repeat split; auto; discriminate.
      * rewrite H503. subst r. repeat split; auto; try discriminate.
        intros [Hr|Hr]; discriminate.
      * rewrite H500. repeat split; auto; try discriminate.
        intros [->| ->]; destruct Hr as [Hr|[Hr|Hr]]; discriminate.
    + right. split; [exact Hr|]. exists e, st'. split; assumption.
  - intros ->. simpl dispatch. unfold outcome_at.
    unfold check_services, bind, SERVICES_items.
    pose proof (check_each_shape w (st_SERVICES st) [] st) as Hloop.
    destruct (poll_from w (st_requests_sent st) (st_SERVICES st)) as [d|[n msg]] eqn:Hpoll.
    + destruct Hloop as [d' Hrun]. rewrite Hrun. split.
      * intros (e & st' & Habs). discriminate Habs.
      * intros (i & name & url & msg & Hi & Hout).
        destruct (poll_from_some_escape w _ _ i name url msg Hi Hout) as (n & msg' & Habs).
        congruence.
    + destruct Hloop as [Hrun _]. rewrite Hrun. split; [|eauto].
      intros _. apply (poll_from_inr_escape w _ _ n msg Hpoll).
Qed.

(** X10: a handler writes to the log exactly when it answers 500.  Then
    it adds one record, at error level, whose message ends with the very
    text the client receives under [error]; with any other status the log
    is left as it was. *)
Theorem dispatch_logs_exactly_on_500 r req w st resp st' :
  dispatch float_str r req w st = (Returns resp, st') ->
  (status_code resp <> 500 -> st_logged st' = st_logged st)
  /\ (status_code resp = 500 ->
      exists context text,
        body resp = JDict [("error", JStr text)]
        /\ st_logged st' = (st_logged st ++ [LogRecord ERROR (context ++ text)])%list).
Proof.
  intros Hrun.
  destruct (dispatch_cases r req w st)
    as [(resp0 & st0 & Hrun0 & Hcases) | (_ & e & st0 & Hrun0 & _)];
    rewrite Hrun in Hrun0; [|discriminate Hrun0].
  injection Hrun0 as <- <-.
  destruct Hcases as [[Hlog [H200|[H503 _]]] | (H500 & _ & Herr)].
  - split; [intros _; exact Hlog | rewrite H200; discriminate].
  - split; [intros _; exact Hlog | rewrite H503; discriminate].
  - split; [contradiction | intros _; exact Herr].
Qed.

(** The log after a run of requests: what was there, then error records,
    at most one per request. *)
Lemma serve_all_logged requests :
  forall st,
    exists errors,
      st_logged (serve_all float_str requests st) = (st_logged st ++ errors)%list
      /\ Forall is_error_record errors
      /\ (length errors <= length requests)%nat.
Proof.
  induction requests as [|[[r req] w] requests IH]; intros st.
  - exists []. rewrite app_nil_r. repeat split; [constructor | simpl; lia].
  - change (serve_all float_str ((r, req, w) :: requests) st)
      with (serve_all float_str requests (snd (dispatch float_str r req w st))).
    destruct (IH (snd (dispatch float_str r req w st))) as (errors & Hlog & Herr & Hlen).
    rewrite Hlog.
    destruct (dispatch_cases r req w st)
      as [(resp & st' & Hrun & Hcases) | (_ & e & st' & Hrun & _ & Hsame)];
      rewrite Hrun; cbn [snd].
    + destruct Hcases as [[Hsame _] | (_ & _ & context & text & _ & Hadd)].
      * exists errors. rewrite Hsame. repeat split; [exact Herr | simpl; lia].
      * exists (LogRecord ERROR (context ++ text) :: errors).
        rewrite Hadd, <- app_assoc. repeat split.
        -- constructor; [reflexivity | exact Herr].
        -- simpl. lia.
    + exists errors. rewrite Hsame. repeat split; [exact Herr | simpl; lia].
Qed.

(** X11: the log of a running process.  After any run of requests the
    records are the startup line, at info level, followed by error
    records only, at most one per request served. *)
Theorem serve_all_log_shape environ requests :
  exists errors,
    st_logged (serve_all float_str requests (startup environ))
    = LogRecord INFO "SafeScan Monitoring startup" :: errors
    /\ Forall is_error_record errors
    /\ (length errors <= length requests)%nat.
Proof.
  destruct (serve_all_logged requests (startup environ)) as (errors & Hlog & Herr & Hlen).
  exists errors. split; [exact Hlog|]. split; assumption.
Qed.

(** X12: only [/services] touches the network.  Every other route sends
    no request, whatever it answers.  [/services] never sends more than one
    request per entry of [SERVICES]; when it answers, it has sent exactly
    one per entry. *)
Theorem only_services_sends_requests r req w st :
  (r <> Services ->
   st_requests_sent (snd (dispatch float_str r req w st)) = st_requests_sent st)
  /\ (r = Services ->
      (st_requests_sent st
       <= st_requests_sent (snd (dispatch float_str r req w st))
       <= st_requests_sent st + length (st_SERVICES st))%nat
      /\ (forall resp st',
            dispatch float_str r req w st = (Returns resp, st') ->
            st_requests_sent st' = (st_requests_sent st + length (st_SERVICES st))%nat)).
Proof.
  split.
  - intros Hr. destruct r; simpl dispatch; try contradiction.
    + reflexivity.
    + unfold system_metrics, try_except, bind, call.
      destruct (w_cpu_percent w), (w_virtual_memory w), (w_disk_usage w), (w_cpu_count w);
        reflexivity.
    + unfold get_logs, try_except, bind, call.
      destruct (w_log_file w) as [|[content|e]]; reflexivity.
    + unfold get_alerts, try_except, bind, call, append_if.
      destruct (w_cpu_percent w) as [cpu|?],
               (w_virtual_memory w) as [memory|?],
               (w_disk_usage w) as [disk|?];
        try destruct (80 <? cpu)%float;
        try destruct (85 <? vm_percent memory)%float;
        try destruct (90 <? du_percent disk)%float;
        reflexivity.
    + reflexivity.
  - intros ->. simpl dispatch.
    destruct (check_services_shape w st) as [(resp & Hrun & _) | (n & msg & Hrun & Hn)];
      rewrite Hrun; cbn [snd with_clock_read st_requests_sent];
      rewrite with_requests_sent_count.
    + split; [lia|]. intros resp0 st0 [= <- <-].
      cbn [with_clock_read st_requests_sent]. apply with_requests_sent_count.
    + split; [lia|]. intros resp0 st0 Habs. discriminate Habs.
Qed.

(** X13: [count] is the number of thresholds breached, and the clock is
    read once for each alert and once more for the answer, whose timestamp
    is therefore the latest; nothing is logged. *)
Theorem get_alerts_counts_breaches w st cpu memory disk :
  w_cpu_percent w = Returns cpu ->
  w_virtual_memory w = Returns memory ->
  w_disk_usage w = Returns disk ->
  let breached :=
    (Nat.b2n (80 <? cpu)%float + Nat.b2n (85 <? vm_percent memory)%float
     + Nat.b2n (90 <? du_percent disk)%float)%nat in
  exists resp st',
    get_alerts float_str w st = (Returns resp, st')
    /\ status_code resp = 200
    /\ field "count" (body resp) = Some (JInt (Z.of_nat breached))
    /\ field "timestamp" (body resp)
       = Some (JStr (w_utcnow_isoformat w (st_clock_reads st + breached)%nat))
    /\ st_clock_reads st' = (st_clock_reads st + breached + 1)%nat
    /\ st_logged st' = st_logged st.
Proof.
  intros Hcpu Hmem Hdisk.
  unfold get_alerts, try_except, bind, call, append_if.
  rewrite Hcpu, Hmem, Hdisk.
  destruct (80 <? cpu)%float, (85 <? vm_percent memory)%float,
           (90 <? du_percent disk)%float;
    cbn; eexists _, _; (split; [reflexivity|]); cbn;
    rewrite ?Nat.add_0_r;
    repeat split; f_equal; try f_equal; try f_equal; lia.
Qed.

End EveryRoute.

Lemma dispatch_logs_exactly_on_500_witness :
  let e := Exn OSError "[Errno 2] No such file or directory: '/'" in
  let resp : response := (JDict [("error", JStr (str e))], 500) in
  let st' := with_record (LogRecord ERROR ("Error getting system metrics: " ++ str e)) (startup ∅) in
  (status_code resp <> 500 -> st_logged st' = st_logged (startup ∅))
  /\ (status_code resp = 500 ->
      exists context text,
        body resp = JDict [("error", JStr text)]
        /\ st_logged st' = (st_logged (startup ∅) ++ [LogRecord ERROR (context ++ text)])%list).
Proof.
  intros e resp st'.
  exact (dispatch_logs_exactly_on_500 sample_float_str Metrics (Request ArgMissing)
           no_disk_world (startup ∅) resp st' eq_refl).
Defined.

Lemma get_alerts_counts_breaches_witness :
  let breached :=
    (Nat.b2n (80 <? 91.5)%float + Nat.b2n (85 <? 25)%float + Nat.b2n (90 <? 95)%float)%nat in
  exists resp st',
    get_alerts sample_float_str hot_world (startup ∅) = (Returns resp, st')
    /\ status_code resp = 200
    /\ field "count" (body resp) = Some (JInt (Z.of_nat breached))
    /\ field "timestamp" (body resp)
       = Some (JStr (w_utcnow_isoformat hot_world (st_clock_reads (startup ∅) + breached)%nat))
    /\ st_clock_reads st' = (st_clock_reads (startup ∅) + breached + 1)%nat
    /\ st_logged st' = st_logged (startup ∅).
Proof.
  exact (get_alerts_counts_breaches sample_float_str hot_world (startup ∅) 91.5%float
           {| vm_total := 8000; vm_available := 6000; vm_percent := 25%float; vm_used := 2000 |}
           {| du_total := 100000; du_used := 95000; du_free := 5000; du_percent := 95%float |}
           eq_refl eq_refl eq_refl).
Defined.

(** ** Metrics and alerts on the same samples *)

Section SameSamples.

Variable float_str : float -> string.

(** X14: [/metrics] and [/alerts] served on the same samples agree: an
    alert of a type is listed exactly when the percentage [/metrics]
    reports for it is above its threshold. *)
Theorem metrics_and_alerts_agree w st1 st2 cpu memory disk count :
  w_cpu_percent w = Returns cpu ->
  w_virtual_memory w = Returns memory ->
  w_disk_usage w = Returns disk ->
  w_cpu_count w = Returns count ->
  exists metrics st1' alerts ts st2' cpu_pct mem_pct disk_pct,
    system_metrics w st1 = (Returns (metrics, 200), st1')
    /\ get_alerts float_str w st2
       = (Returns (JDict [("alerts", JList alerts);
                          ("count", JInt (Py.len alerts));
                          ("timestamp", JStr ts)], 200), st2')
    /\ field "cpu" metrics ≫= field "percent" = Some (JFloat cpu_pct)
    /\ field "memory" metrics ≫= field "percent" = Some (JFloat mem_pct)
    /\ field "disk" metrics ≫= field "percent" = Some (JFloat disk_pct)
    /\ (alerts_of_type "cpu" alerts <> [] <-> (80 <? cpu_pct)%float = true)
    /\ (alerts_of_type "memory" alerts <> [] <-> (85 <? mem_pct)%float = true)
    /\ (alerts_of_type "disk" alerts <> [] <-> (90 <? disk_pct)%float = true).
Proof.
  intros Hcpu Hmem Hdisk Hcount.
  unfold system_metrics, get_alerts, try_except, bind, call, append_if.
  rewrite Hcpu, Hmem, Hdisk, Hcount.
  destruct (80 <? cpu)%float eqn:Hc, (85 <? vm_percent memory)%float eqn:Hm,
           (90 <? du_percent disk)%float eqn:Hd;
    cbn; eexists _, _, _, _, _, _, _, _;
    (split; [reflexivity|]); (split; [reflexivity|]);
    (split; [reflexivity|]); (split; [reflexivity|]); (split; [reflexivity|]);
    rewrite Hc, Hm, Hd; cbn;
    (split; [split; intros; congruence|]);
    (split; [split; intros; congruence|]);
    split; intros; congruence.
Qed.

End SameSamples.

Lemma metrics_and_alerts_agree_witness :
  exists metrics st1' alerts ts st2' cpu_pct mem_pct disk_pct,
    system_metrics hot_world (startup ∅) = (Returns (metrics, 200), st1')
    /\ get_alerts sample_float_str hot_world (startup ∅)
       = (Returns (JDict [("alerts", JList alerts);
                          ("count", JInt (Py.len alerts));
                          ("timestamp", JStr ts)], 200), st2')
    /\ field "cpu" metrics ≫= field "percent" = Some (JFloat cpu_pct)
    /\ field "memory" metrics ≫= field "percent" = Some (JFloat mem_pct)
    /\ field "disk" metrics ≫= field "percent" = Some (JFloat disk_pct)
    /\ (alerts_of_type "cpu" alerts <> [] <-> (80 <? cpu_pct)%float = true)
    /\ (alerts_of_type "memory" alerts <> [] <-> (85 <? mem_pct)%float = true)
    /\ (alerts_of_type "disk" alerts <> [] <-> (90 <? disk_pct)%float = true).
Proof.
  exact (metrics_and_alerts_agree sample_float_str hot_world (startup ∅) (startup ∅) 91.5%float
           {| vm_total := 8000; vm_available := 6000; vm_percent := 25%float; vm_used := 2000 |}
           {| du_total := 100000; du_used := 95000; du_free := 5000; du_percent := 95%float |}
           (Some 4) eq_refl eq_refl eq_refl eq_refl).
Defined.

(** ** The log directory under [file_handler] *)

Lemma backups_sum_bound (bound : Z) (sizes : list Z) :
  Forall (fun b => 0 <= b < bound) sizes ->
  foldr Z.add 0 sizes <= Z.of_nat (length sizes) * bound.
Proof.
  induction 1 as [|b sizes Hb _ IH]; [reflexivity|].
  cbn [foldr length]. lia.
Qed.

(** One record: the base file stays below [maxBytes] plus the slack, what
    is moved to the backups was a base file below it, and there are still
    at most ten of them. *)
Lemma emit_keeps_sizes slack fs m :
  0 <= msg_chars m < 10240000 ->
  msg_chars m <= msg_bytes m <= msg_chars m + slack ->
  0 <= base_size fs < 10240000 + slack ->
  Forall (fun b => 0 <= b < 10240000 + slack) (backups fs) ->
  (length (backups fs) <= 10)%nat ->
  0 <= base_size (emit file_handler fs m) < 10240000 + slack
  /\ Forall (fun b => 0 <= b < 10240000 + slack) (backups (emit file_handler fs m))
  /\ (length (backups (emit file_handler fs m)) <= 10)%nat.
Proof.
  intros Hchars Hbytes Hbase Hbackups Hlen.
  unfold emit, shouldRollover, doRollover.
  cbn [maxBytes backupCount file_handler].
  destruct (Z.leb_spec 10240000 (base_size fs + msg_chars m)) as [Hfull|Hroom];
    cbn [andb base_size backups Z.ltb Z.compare].
  - split; [lia|]. split.
    + apply Forall_take. constructor; [lia | exact Hbackups].
    + rewrite length_take. lia.
  - split; [lia|]. split; assumption.
Qed.

Lemma emit_all_keeps_sizes slack msgs :
  Forall (fun m => 0 <= msg_chars m < 10240000
                   /\ msg_chars m <= msg_bytes m <= msg_chars m + slack) msgs ->
  forall fs,
    0 <= base_size fs < 10240000 + slack ->
    Forall (fun b => 0 <= b < 10240000 + slack) (backups fs) ->
    (length (backups fs) <= 10)%nat ->
    0 <= base_size (emit_all file_handler fs msgs) < 10240000 + slack
    /\ Forall (fun b => 0 <= b < 10240000 + slack) (backups (emit_all file_handler fs msgs))
    /\ (length (backups (emit_all file_handler fs msgs)) <= 10)%nat.
Proof.
  induction 1 as [|m msgs [Hchars Hbytes] _ IH]; intros fs Hbase Hbackups Hlen.
  - change (emit_all file_handler fs []) with fs. split; [exact Hbase|]. split; assumption.
  - change (emit_all file_handler fs (m :: msgs))
      with (emit_all file_handler (emit file_handler fs m) msgs).
    destruct (emit_keeps_sizes slack fs m Hchars Hbytes Hbase Hbackups Hlen) as (Hb & Hbs & Hl).
    apply IH; assumption.
Qed.

(** X15: the space the log takes.  The rollover test counts the
    characters of a record while the file grows by its encoded bytes.
    Starting from an empty directory, as long as every formatted record has
    fewer than 10,240,000 characters and its encoding is at most [slack]
    bytes longer than it has characters (none for ASCII text), the base
    file stays below 10,240,000 + [slack] bytes, so does every backup, and
    the whole directory below 11 times that. *)
Theorem file_handler_disk_bound slack msgs :
  0 <= slack ->
  Forall (fun m => 0 <= msg_chars m < 10240000
                   /\ msg_chars m <= msg_bytes m <= msg_chars m + slack) msgs ->
  let fs := emit_all file_handler (LogFiles 0 []) msgs in
  0 <= base_size fs < 10240000 + slack
  /\ Forall (fun b => 0 <= b < 10240000 + slack) (backups fs)
  /\ total_bytes fs < 11 * (10240000 + slack).
Proof.
  intros Hslack Hmsgs fs.
  destruct (emit_all_keeps_sizes slack msgs Hmsgs (LogFiles 0 []))
    as (Hbase & Hbackups & Hlen); [simpl; lia | constructor | simpl; lia |].
  fold fs in Hbase, Hbackups, Hlen.
  split; [exact Hbase|]. split; [exact Hbackups|].
  unfold total_bytes. pose proof (backups_sum_bound _ _ Hbackups). nia.
Qed.

Lemma file_handler_disk_bound_witness :
  let msgs := [ascii_record 6000000; {| msg_chars := 5000000; msg_bytes := 5000003 |};
               ascii_record 120; ascii_record 10239999] in
  let fs := emit_all file_handler (LogFiles 0 []) msgs in
  0 <= base_size fs < 10240000 + 3
  /\ Forall (fun b => 0 <= b < 10240000 + 3) (backups fs)
  /\ total_bytes fs < 11 * (10240000 + 3).
Proof.
  intros msgs.
  apply (file_handler_disk_bound 3 msgs); [lia|].
  repeat constructor; simpl; lia.
Defined.

(** ** The environment *)

(** X16: [SERVICES] reads the three variables and nothing else.  Setting
    one of them, even to the empty string, sets the URL of its endpoint and
    leaves the other two alone; setting any other variable changes
    nothing. *)
Theorem SERVICES_reads_three_variables environ :
  (forall u,
      SERVICES (<["API_URL" := u]> environ)
      = [("api", u);
         ("database", default placeholder_url (environ !! "DB_URL"));
         ("redis", default placeholder_url (environ !! "REDIS_URL"))])
  /\ (forall u,
        SERVICES (<["DB_URL" := u]> environ)
        = [("api", default placeholder_url (environ !! "API_URL"));
           ("database", u);
           ("redis", default placeholder_url (environ !! "REDIS_URL"))])
  /\ (forall u,
        SERVICES (<["REDIS_URL" := u]> environ)
        = [("api", default placeholder_url (environ !! "API_URL"));
           ("database", default placeholder_url (environ !! "DB_URL"));
           ("redis", u)])
  /\ (forall var u,
        var <> "API_URL" -> var <> "DB_URL" -> var <> "REDIS_URL" ->
        SERVICES (<[var := u]> environ) = SERVICES environ).
Proof.
  unfold SERVICES, Py.getenv. repeat split; intros.
  - rewrite lookup_insert_eq, !lookup_insert_ne by discriminate. reflexivity.
  - rewrite lookup_insert_eq, !lookup_insert_ne by discriminate. reflexivity.
  - rewrite lookup_insert_eq, !lookup_insert_ne by discriminate. reflexivity.
  - rewrite !lookup_insert_ne by assumption. reflexivity.
Qed.

Lemma SERVICES_reads_three_variables_witness :
  SERVICES (<["DB_URL" := ""]> ∅)
  = [("api", placeholder_url); ("database", ""); ("redis", placeholder_url)]
  /\ SERVICES (<["HOME" := "/root"]> (<["DB_URL" := ""]> ∅)) = SERVICES (<["DB_URL" := ""]> ∅).
Proof.
  split.
  - exact (proj1 (proj2 (SERVICES_reads_three_variables ∅)) "").
  - apply (proj2 (proj2 (proj2 (SERVICES_reads_three_variables (<["DB_URL" := ""]> ∅))))); discriminate.
Defined.
